(** * Expense dashboard: ledger store, week window and anomaly detector

    A shallow embedding of the helper functions of [jjjj.py] (the Streamlit
    application [app.py]) together with the start-up code that loads the
    regression model, and the properties of them that the design document
    states.

    Conventions of the embedding.

    - The helpers are a few lines each and call pandas.  What pandas does is
      written out for the inputs described below, and for no others: where
      pandas does something the embedding does not describe (it turns a
      column into floats, renames a repeated header, reads a text as a
      number, a date or a missing value in a way that depends on its
      spelling, types a long file piece by piece), the embedded call
      answers [Beyond], and no property speaks of such a call.
    - Money amounts stored in the ledger are 64-bit integers; float columns
      are [Beyond].  The anomaly detector is given twice: over any
      arithmetic, rounding included, and over exact rationals ([Q]) with a
      missing value ([None]) for NaN, where quantiles are computed exactly.
    - A [Timestamp] is a count of nanoseconds since the epoch that fits 64
      bits, as pandas stores it.  A date of the file is a calendar date
      written year-month-day, as [to_csv] writes a date column; a date in
      any other spelling is a text.
    - The CSV tokenizer belongs to pandas, not to the application.  A
      stored field is modelled by what type inference makes of it: nothing,
      an integer literal, a date literal, or a text that is none of these
      by its spelling.
    - The storage file is a piece of state: the helpers are written in a
      small state-and-exception monad over it. *)

From Stdlib Require Import String Ascii Bool ZArith QArith Qround List Lia.
From Stdlib Require Import Sorted Lqa.
Import ListNotations.
Local Open Scope string_scope.
Local Open Scope list_scope.
Local Open Scope Z_scope.

(** ** Numbers with NaN *)

Module Num.

(** A float of the series: a rational, or NaN. *)
Definition num := option Q.

Definition nan : num := None.

Definition lift2 (f : Q -> Q -> Q) (x y : num) : num :=
  match x, y with
  | Some a, Some b => Some (f a b)
  | _, _ => None
  end.

Definition sub : num -> num -> num := lift2 Qminus.
Definition add : num -> num -> num := lift2 Qplus.
Definition mul : num -> num -> num := lift2 Qmult.

Definition isnan (x : num) : bool :=
  match x with None => true | Some _ => false end.

(** [x == 0]: false on NaN. *)
Definition is_zero (x : num) : bool :=
  match x with Some a => Qeq_bool a 0 | None => false end.

Definition Qlt_bool (a b : Q) : bool := negb (Qle_bool b a).

(** [x < y] and [x > y]: every comparison with NaN is false. *)
Definition lt (x y : num) : bool :=
  match x, y with
  | Some a, Some b => Qlt_bool a b
  | _, _ => false
  end.

Definition gt (x y : num) : bool := lt y x.

End Num.

(** ** Series *)

Module Series.

(** A pandas Series: the values in order, each with its index label. *)
Definition label := Z.
Definition t (A : Type) := list (label * A).

Definition index {A} (s : t A) : list label := map fst s.
Definition values {A} (s : t A) : list A := map snd s.

(** [pd.Series(vals)]: the default index 0, 1, 2, ... *)
Fixpoint enumerate_from {A} (i : Z) (vals : list A) : t A :=
  match vals with
  | [] => []
  | v :: rest => (i, v) :: enumerate_from (i + 1) rest
  end.

Definition of_list {A} (vals : list A) : t A := enumerate_from 0 vals.

(** [pd.Series([c]*len(s), index=s.index)] *)
Definition const_like {A B} (c : B) (s : t A) : t B :=
  map (fun p => (fst p, c)) s.

(** An elementwise operation keeps the index. *)
Definition map_values {A B} (f : A -> B) (s : t A) : t B :=
  map (fun p => (fst p, f (snd p))) s.

Fixpoint dropna (vals : list Num.num) : list Q :=
  match vals with
  | [] => []
  | Some a :: rest => a :: dropna rest
  | None :: rest => dropna rest
  end.

Fixpoint insert_sorted (a : Q) (l : list Q) : list Q :=
  match l with
  | [] => [a]
  | b :: rest => if Qle_bool a b then a :: l else b :: insert_sorted a rest
  end.

Fixpoint sort (l : list Q) : list Q :=
  match l with
  | [] => []
  | a :: rest => insert_sorted a (sort rest)
  end.

(** [series.quantile(q)] with pandas' default linear interpolation: NaN
    entries are skipped; on the sorted values x_0 .. x_(n-1) the quantile
    sits at the fractional position h = (n-1) q, between x_floor(h) and its
    right neighbour.  NaN when no value is left. *)
Definition quantile (s : t Num.num) (q : Q) : Num.num :=
  let xs := sort (dropna (values s)) in
  match xs with
  | [] => Num.nan
  | x0 :: _ =>
      let n := Z.of_nat (length xs) in
      let h := (inject_Z (n - 1) * q)%Q in
      let lo := Qfloor h in
      let hi := Z.min (lo + 1) (n - 1) in
      let frac := (h - inject_Z lo)%Q in
      let a := nth (Z.to_nat lo) xs x0 in
      let b := nth (Z.to_nat hi) xs x0 in
      Some (a + (b - a) * frac)%Q
  end.

End Series.

(** ** Anomaly detector *)

(** [anomaly_iqr(series, k=1.5)] *)
Definition anomaly_iqr (series : Series.t Num.num) (k : Q) : Series.t bool :=
  let q1 := Series.quantile series (1 # 4) in
  let q3 := Series.quantile series (3 # 4) in
  let iqr := Num.sub q3 q1 in
  if Num.is_zero iqr || Num.isnan iqr then
    Series.const_like false series
  else
    let lower := Num.sub q1 (Num.mul (Some k) iqr) in
    let upper := Num.add q3 (Num.mul (Some k) iqr) in
    Series.map_values (fun v => Num.lt v lower || Num.gt v upper) series.

(** The default multiplier, 1.5. *)
Definition default_k : Q := 3 # 2.


(** The detector over any arithmetic: the numbers of the series, the
    operations the code applies to them, and [series.quantile] as the
    library computes it.  Binary64 with its rounding is one such
    arithmetic, the exact rationals above are another. *)
Record arithmetic := mkArithmetic {
  number : Type;
  minus : number -> number -> number;
  plus : number -> number -> number;
  times : number -> number -> number;
  less : number -> number -> bool;
  equals_zero : number -> bool;
  is_not_a_number : number -> bool;
  quantile_of : Series.t number -> Q -> number
}.

(** [anomaly_iqr(series, k)] written once for every arithmetic. *)
Definition anomaly_iqr_in (A : arithmetic) (series : Series.t (number A))
  (k : number A) : Series.t bool :=
  let q1 := quantile_of A series (1 # 4) in
  let q3 := quantile_of A series (3 # 4) in
  let iqr := minus A q3 q1 in
  if equals_zero A iqr || is_not_a_number A iqr then
    Series.const_like false series
  else
    let lower := minus A q1 (times A k iqr) in
    let upper := plus A q3 (times A k iqr) in
    Series.map_values (fun v => less A v lower || less A upper v) series.

Definition exact_arithmetic : arithmetic :=
  mkArithmetic Num.num Num.sub Num.add Num.mul Num.lt Num.is_zero Num.isnan
    Series.quantile.

(** ** The pandas objects the helpers handle *)

(** Exceptions. *)
Inductive exn :=
| EmptyDataError      (* read_csv: no header line to parse *)
| ParserError         (* read_csv: a line with too many fields *)
| ValueError          (* read_csv: a parse_dates column is missing *)
| KeyError            (* df[c]: no such column *)
| TypeError           (* comparison or sum of incompatible values *)
| FileNotFoundError   (* open: no such file *)
| OutOfBounds.        (* OutOfBoundsTimedelta, OutOfBoundsDatetime,
                         OverflowError: a span or an instant that does not
                         fit 64 bits *)

(** What a call does: it returns, it raises, or it is one the embedding
    does not describe. *)
Inductive result (A : Type) :=
| Ok (a : A)
| Raise (e : exn)
| Beyond.

Arguments Ok {A} a.
Arguments Raise {A} e.
Arguments Beyond {A}.

(** [pd.Timestamp]: nanoseconds since the epoch. *)
Definition Timestamp := Z.

Definition ns_per_day : Z := 86400000000000.

Definition int64_max : Z := 9223372036854775807.

Definition int64 (n : Z) : bool :=
  (- int64_max - 1 <=? n) && (n <=? int64_max).

(** The counts of nanoseconds that are a Timestamp or a Timedelta: the
    64-bit integers but the least one, which pandas keeps for NaT. *)
Definition in_bounds (t : Z) : bool :=
  (- int64_max <=? t) && (t <=? int64_max).

Definition Timedelta_days (d : Z) : Z := d * ns_per_day.

(** [pd.Timedelta(days=d)] *)
Definition Timedelta (d : Z) : result Z :=
  if in_bounds (Timedelta_days d) then Ok (Timedelta_days d)
  else Raise OutOfBounds.

(** [t - delta] for a Timestamp and a Timedelta.  (A difference that falls
    on the least 64-bit integer is NaT.) *)
Definition Timestamp_sub (t : Timestamp) (delta : Z) : result Timestamp :=
  if in_bounds (t - delta) then Ok (t - delta)
  else if t - delta =? - int64_max - 1 then Beyond
  else Raise OutOfBounds.

(** [t.normalize()]: midnight of the day of [t]. *)
Definition normalize (t : Timestamp) : Timestamp := t - t mod ns_per_day.

(** A calendar date: midnight of a day within the bounds. *)
Definition calendar_date (t : Z) : bool :=
  in_bounds t && (t mod ns_per_day =? 0).

(** *** Texts *)

Definition is_letter (a : ascii) : bool :=
  let n := nat_of_ascii a in
  ((65 <=? n) && (n <=? 90) || (97 <=? n) && (n <=? 122))%nat.

Definition lower (a : ascii) : ascii :=
  let n := nat_of_ascii a in
  if ((65 <=? n) && (n <=? 90))%nat then ascii_of_nat (n + 32) else a.

Definition lowercase (s : string) : string :=
  string_of_list_ascii (map lower (list_ascii_of_string s)).

Fixpoint drop_spaces (l : list ascii) : list ascii :=
  match l with
  | " "%char :: rest => drop_spaces rest
  | _ => l
  end.

Definition strip (s : string) : string :=
  string_of_list_ascii
    (rev (drop_spaces (rev (drop_spaces (list_ascii_of_string s))))).

(** The spellings that pandas reads as a missing value, a number or a
    boolean although they have letters in them, in lower case. *)
Definition reserved_words : list string :=
  ["na"; "n/a"; "#n/a"; "#n/a n/a"; "#na"; "-1.#ind"; "-1.#qnan"; "1.#ind";
   "1.#qnan"; "<na>"; "null"; "nan"; "-nan"; "+nan"; "none"; "inf"; "-inf";
   "+inf"; "infinity"; "-infinity"; "+infinity"; "true"; "false"].

Definition mem (c : string) (cols : list string) : bool :=
  existsb (String.eqb c) cols.

(** A text that a round trip through the file and type inference leave
    the text it is: it has no control character, it has a letter other than
    the [e] of an exponent, and it is none of the reserved words. *)
Definition plain_text (s : string) : bool :=
  forallb (fun a => (32 <=? nat_of_ascii a)%nat) (list_ascii_of_string s)
  && existsb (fun a => is_letter a && negb (Ascii.eqb (lower a) "e"%char))
       (list_ascii_of_string s)
  && negb (mem (lowercase (strip s)) reserved_words).

(** A text that no date parser accepts: no word of a date, in any format,
    has a small [x] in it. *)
Definition no_date (s : string) : bool :=
  existsb (Ascii.eqb "x"%char) (list_ascii_of_string s).

(** *** Fields and cells *)

(** A field of the stored file. *)
Inductive field :=
| FEmpty                  (* nothing *)
| FInt (n : Z)            (* an integer literal *)
| FDate (t : Timestamp)   (* the day [t] written year-month-day, as
                             [to_csv] writes a date column *)
| FText (s : string).     (* a text *)

(** The fields the embedding covers. *)
Definition known (f : field) : bool :=
  match f with
  | FEmpty => true
  | FInt n => int64 n
  | FDate t => calendar_date t
  | FText s => plain_text s
  end.

(** A cell of a DataFrame or a value of a row dict.  [VStr f] is the Python
    string whose text is the field [f]; [VDate t] is a [pd.Timestamp];
    [VNaN] is NaN, or NaT in a date column. *)
Inductive value :=
| VNaN
| VInt (n : Z)
| VDate (t : Timestamp)
| VStr (f : field).

Definition is_nan (v : value) : bool :=
  match v with VNaN => true | _ => false end.

Definition is_int (v : value) : bool :=
  match v with VInt _ => true | _ => false end.

Definition is_date_value (v : value) : bool :=
  match v with VDate _ => true | _ => false end.

Definition is_str (v : value) : bool :=
  match v with VStr _ => true | _ => false end.

(** A DataFrame: column labels and the rows, each a list of cells in column
    order.  The row index is positional. *)
Record DataFrame := mkDataFrame {
  columns : list string;
  rows : list (list value)
}.

(** A row passed to [save_entry]: the items of a Python dict, in insertion
    order (keys pairwise distinct). *)
Definition dict := list (string * value).

Fixpoint dict_get (d : dict) (c : string) : option value :=
  match d with
  | [] => None
  | (c', v) :: rest => if String.eqb c' c then Some v else dict_get rest c
  end.

(** The cell of row [r] under label [c], when the columns are [cols]. *)
Fixpoint row_get (cols : list string) (r : list value) (c : string)
  : option value :=
  match cols, r with
  | c' :: cols', v :: r' =>
      if String.eqb c' c then Some v else row_get cols' r' c
  | _, _ => None
  end.

Definition or_nan (o : option value) : value :=
  match o with Some v => v | None => VNaN end.

(** [df.empty]: no rows or no columns. *)
Definition empty (df : DataFrame) : bool :=
  match columns df, rows df with
  | [], _ => true
  | _, [] => true
  | _, _ => false
  end.

(** [pd.DataFrame([row])] and [pd.DataFrame(columns=cols)] *)
Definition DataFrame_of_row (row : dict) : DataFrame :=
  mkDataFrame (map fst row) [map snd row].

Definition DataFrame_of_columns (cols : list string) : DataFrame :=
  mkDataFrame cols [].

(** Align a row on new column labels; a label it lacks gives NaN. *)
Definition reindex (cols : list string) (new_cols : list string)
  (r : list value) : list value :=
  map (fun c => or_nan (row_get cols r c)) new_cols.

(** Whether some column of a frame of the given width satisfies [p]. *)
Fixpoint any_column (p : list value -> bool) (width : nat)
  (rs : list (list value)) : bool :=
  match width with
  | O => false
  | S w => p (map (hd VNaN) rs) || any_column p w (map (@tl value) rs)
  end.

(** A column that pandas turns into floats: integers next to missing
    values and nothing else. *)
Definition promotes (col : list value) : bool :=
  existsb is_int col && existsb is_nan col
  && negb (existsb is_str col) && negb (existsb is_date_value col).

Definition int_fits (v : value) : bool :=
  match v with VInt n => int64 n | _ => true end.

(** [pd.concat([a, b], ignore_index=True)]: the union of the columns, those
    of [a] first, and the rows of [a] followed by the rows of [b].  Cells
    are kept as they are, unless an integer column takes a missing value or
    an integer beyond 64 bits and becomes a float column. *)
Definition concat (a b : DataFrame) : result DataFrame :=
  let cols :=
    columns a ++ filter (fun c => negb (mem c (columns a))) (columns b) in
  let rs := map (reindex (columns a) cols) (rows a)
            ++ map (reindex (columns b) cols) (rows b) in
  if any_column promotes (length cols) rs
     || negb (forallb (forallb int_fits) rs)
  then Beyond
  else Ok (mkDataFrame cols rs).

(** [df[c]]: the cells of a column, top to bottom. *)
Definition column (df : DataFrame) (c : string) : result (list value) :=
  if mem c (columns df)
  then Ok (map (fun r => or_nan (row_get (columns df) r c)) (rows df))
  else Raise KeyError.

(** [col >= t] and [col <= t] against a Timestamp: NaT compares false, a
    cell that is no date raises. *)
Fixpoint compare_with (op : Z -> Z -> bool) (col : list value) (t : Timestamp)
  : result (list bool) :=
  match col with
  | [] => Ok []
  | v :: rest =>
      match v with
      | VDate x =>
          if in_bounds x then
            match compare_with op rest t with
            | Ok m => Ok (op x t :: m)
            | other => other
            end
          else Beyond
      | VNaN =>
          match compare_with op rest t with
          | Ok m => Ok (false :: m)
          | other => other
          end
      | _ => Raise TypeError
      end
  end.

(** A column with nothing but missing values in it: a column of floats or
    a column of dates, which a Timestamp compares with differently. *)
Definition all_missing (col : list value) : bool :=
  match col with
  | [] => false
  | _ => forallb is_nan col
  end.

(** [m1 & m2] *)
Fixpoint mask_and (m1 m2 : list bool) : list bool :=
  match m1, m2 with
  | b1 :: r1, b2 :: r2 => (b1 && b2) :: mask_and r1 r2
  | _, _ => []
  end.

(** [df.loc[mask].copy()] *)
Fixpoint select {A} (mask : list bool) (l : list A) : list A :=
  match mask, l with
  | b :: m, x :: rest => if b then x :: select m rest else select m rest
  | _, _ => []
  end.

Definition loc (df : DataFrame) (mask : list bool) : DataFrame :=
  mkDataFrame (columns df) (select mask (rows df)).

(** *** The stored file *)

(** What the file holds: nothing at all, or a header line and data lines. *)
Inductive content :=
| Blank
| Table (header : list string) (lines : list (list field)).

Inductive dtype := DInt | DDate | DObject.

Definition int_or_empty (f : field) : bool :=
  match f with FEmpty | FInt _ => true | _ => false end.

Definition date_or_empty (f : field) : bool :=
  match f with FEmpty | FDate _ => true | _ => false end.

Definition is_int_field (f : field) : bool :=
  match f with FInt _ => true | _ => false end.

Definition is_empty_field (f : field) : bool :=
  match f with FEmpty => true | _ => false end.

Definition surely_no_date (f : field) : bool :=
  match f with FText s => no_date s | _ => false end.

(** pandas types a long file piece by piece, and a column that holds
    numbers in one piece and texts in another comes out mixed.  A table
    short enough to be typed in one piece, whatever its width. *)
Definition one_piece (h : list string) (ls : list (list field)) : bool :=
  Z.of_nat (length ls) * Z.of_nat (length h) <=? 262144.

(** Type inference on the fields of one column; [whole] says that the
    column is typed in one piece.  A [parse_dates] column is a date column
    when every field is a date, and is left as the strings it holds when
    one of them is surely no date.  Another column is an integer column
    when every field is an integer, and a column of strings when some
    field is a text.  [None]: integers next to empty fields (a float
    column), integers next to texts in a column typed piece by piece, a
    date column that may or may not parse, a field the embedding does not
    cover. *)
Definition infer (parse whole : bool) (col : list field) : option dtype :=
  if negb (forallb known col) then None
  else if parse then
    if forallb date_or_empty col then Some DDate
    else if existsb surely_no_date col then Some DObject
    else None
  else if forallb int_or_empty col then
    if existsb is_int_field col && existsb is_empty_field col then None
    else Some DInt
  else if existsb is_int_field col && negb whole then None
  else Some DObject.

Definition convert (d : dtype) (f : field) : value :=
  match f, d with
  | FEmpty, _ => VNaN
  | FInt n, DInt => VInt n
  | FDate t, DDate => VDate t
  | _, _ => VStr f
  end.

Definition first_field (l : list field) : field := hd FEmpty l.

Fixpoint infer_dtypes (parse_dates : list string) (whole : bool)
  (h : list string) (ls : list (list field)) : option (list dtype) :=
  match h with
  | [] => Some []
  | c :: h' =>
      match infer (mem c parse_dates) whole (map first_field ls),
            infer_dtypes parse_dates whole h' (map (@tl field) ls) with
      | Some d, Some ds => Some (d :: ds)
      | _, _ => None
      end
  end.

(** A line shorter than the header is completed with empty fields. *)
Fixpoint convert_line (ds : list dtype) (l : list field) : list value :=
  match ds with
  | [] => []
  | d :: ds' => convert d (first_field l) :: convert_line ds' (tl l)
  end.

Definition too_long (h : list string) (l : list field) : bool :=
  (length h <? length l)%nat.

(** A line with nothing on it; [read_csv] skips it. *)
Definition blank_line (l : list field) : bool :=
  match l with [] => true | _ => false end.

Fixpoint distinct (l : list string) : bool :=
  match l with
  | [] => true
  | c :: rest => negb (mem c rest) && distinct rest
  end.

(** A header that pandas takes as it is: the names differ from one another
    and none is empty. *)
Definition header_ok (h : list string) : bool :=
  distinct h && negb (mem "" h).

(** [pd.read_csv(file, parse_dates=...)] on the content of the file. *)
Definition read_csv (c : content) (parse_dates : list string)
  : result DataFrame :=
  match c with
  | Blank => Raise EmptyDataError
  | Table [] _ => Beyond
  | Table h ls =>
      if negb (forallb (fun c => mem c h) parse_dates) then Raise ValueError
      else if negb (header_ok h) then Beyond
      else
        let ls := filter (fun l => negb (blank_line l)) ls in
        if too_long h (hd [] ls) then Beyond
        else if existsb (too_long h) ls then Raise ParserError
        else
          match infer_dtypes parse_dates (one_piece h ls) h ls with
          | Some ds => Ok (mkDataFrame h (map (convert_line ds) ls))
          | None => Beyond
          end
  end.

Definition field_of_value (v : value) : field :=
  match v with
  | VNaN => FEmpty
  | VInt n => FInt n
  | VDate t => FDate t
  | VStr f => f
  end.

(** A column that [to_csv] does not write as this embedding has it: dates
    next to numbers or strings. *)
Definition mixed_dates (col : list value) : bool :=
  existsb is_date_value col && (existsb is_int col || existsb is_str col).

Definition date_fits (v : value) : bool :=
  match v with VDate t => calendar_date t | _ => true end.

(** What [df.to_csv(file, index=False)] writes, unless the frame has a
    column of floats or of dates next to other values. *)
Definition to_csv (df : DataFrame) : result content :=
  if any_column mixed_dates (length (columns df)) (rows df)
     || any_column promotes (length (columns df)) (rows df)
     || negb (forallb (forallb date_fits) (rows df))
     || negb (forallb (forallb int_fits) (rows df))
  then Beyond
  else Ok (Table (columns df) (map (map field_of_value) (rows df))).

(** ** The storage file as state *)

(** [None]: there is no file at [STORAGE_FILE]. *)
Definition storage := option content.

Definition M (A : Type) := storage -> result A * storage.

Definition ret {A} (a : A) : M A := fun s => (Ok a, s).

Definition bind {A B} (m : M A) (f : A -> M B) : M B :=
  fun s =>
    match m s with
    | (Ok a, s') => f a s'
    | (Raise e, s') => (Raise e, s')
    | (Beyond, s') => (Beyond, s')
    end.

Notation "x <- m ;; k" := (bind m (fun x => k))
  (at level 61, m at next level, right associativity).
Notation "m ;;; k" := (bind m (fun _ => k))
  (at level 61, right associativity).

Definition lift {A} (r : result A) : M A := fun s => (r, s).

(** [os.path.exists(STORAGE_FILE)] *)
Definition path_exists : M bool :=
  fun s => (Ok (match s with Some _ => true | None => false end), s).

Definition read_file : M content :=
  fun s =>
    match s with
    | Some c => (Ok c, s)
    | None => (Raise FileNotFoundError, s)
    end.

(** [open(STORAGE_FILE, "w")]: the file is there and holds nothing. *)
Definition open_for_writing : M unit := fun _ => (Ok tt, Some Blank).

(** The content goes out to the file that was opened. *)
Definition write_out (c : content) : M unit := fun _ => (Ok tt, Some c).

Definition write_file (c : content) : M unit :=
  open_for_writing ;;; write_out c.

(** [df.to_csv(STORAGE_FILE, index=False)] *)
Definition to_csv_file (df : DataFrame) : M unit :=
  c <- lift (to_csv df) ;;
  write_file c.

(** ** Configuration *)

Definition CATEGORIES : list string :=
  ["Rent"; "Loan_Repayment"; "Insurance"; "Groceries"; "Transport";
   "Eating_Out"; "Entertainment"; "Utilities"; "Healthcare"; "Education";
   "Miscellaneous"].

Definition PRED_TARGETS : list string := CATEGORIES.

Definition storage_columns : list string :=
  ["Fake_date"; "Income"; "Age"; "Dependents"; "Occupation"; "City_Tier"]
  ++ CATEGORIES ++ ["Total_Expenses"; "Disposable_Income"].

(** ** Helpers *)

Definition ensure_storage : M unit :=
  present <- path_exists ;;
  if negb present
  then to_csv_file (DataFrame_of_columns storage_columns)
  else ret tt.

Definition load_storage : M DataFrame :=
  ensure_storage ;;;
  c <- read_file ;;
  lift (read_csv c ["Fake_date"]).

Definition save_entry (row : dict) : M unit :=
  df <- load_storage ;;
  df <- lift (concat df (DataFrame_of_row row)) ;;
  to_csv_file df.

(** [save_entry] up to the point where the storage file has been opened
    for writing and nothing has gone out to it yet; it returns what is
    still to be written. *)
Definition save_entry_interrupted (row : dict) : M content :=
  df <- load_storage ;;
  df <- lift (concat df (DataFrame_of_row row)) ;;
  c <- lift (to_csv df) ;;
  open_for_writing ;;;
  ret c.

(** [x + y] of Python on the values a row may hold.  A sum beyond 64 bits
    is exact for Python integers and wraps around for numpy ones. *)
Definition py_add (x y : value) : result value :=
  match x, y with
  | VInt a, VInt b => if int64 (a + b) then Ok (VInt (a + b)) else Beyond
  | VInt _, VNaN | VNaN, VInt _ | VNaN, VNaN => Ok VNaN
  | _, _ => Raise TypeError
  end.

(** [sum(l)]: 0 + l[0] + l[1] + ... *)
Fixpoint py_sum_from (acc : value) (l : list value) : result value :=
  match l with
  | [] => Ok acc
  | v :: rest =>
      match py_add acc v with
      | Ok acc' => py_sum_from acc' rest
      | other => other
      end
  end.

Definition py_sum (l : list value) : result value := py_sum_from (VInt 0) l.

(** [row.get(c, 0)] *)
Definition get_or_zero (row : dict) (c : string) : value :=
  match dict_get row c with Some v => v | None => VInt 0 end.

Definition compute_total (row : dict) : result value :=
  py_sum (map (get_or_zero row) CATEGORIES).

(** [get_week_df(df, end_date=None, days=7)]; [now] is what
    [pd.Timestamp.today()] reads from the clock. *)
Definition get_week_df (now : Timestamp) (df : DataFrame)
  (end_date : option Timestamp) (days : Z) : result DataFrame :=
  if empty df then Ok df
  else
    let end_date :=
      match end_date with None => normalize now | Some e => e end in
    if negb (in_bounds end_date) then Beyond
    else
      match Timedelta (days - 1) with
      | Raise e => Raise e
      | Beyond => Beyond
      | Ok delta =>
          match Timestamp_sub end_date delta with
          | Raise e => Raise e
          | Beyond => Beyond
          | Ok start =>
              match column df "Fake_date" with
              | Raise e => Raise e
              | Beyond => Beyond
              | Ok col =>
                  if all_missing col then Beyond
                  else
                  match compare_with Z.geb col start with
                  | Raise e => Raise e
                  | Beyond => Beyond
                  | Ok m1 =>
                      match compare_with Z.leb col end_date with
                      | Raise e => Raise e
                      | Beyond => Beyond
                      | Ok m2 => Ok (loc df (mask_and m1 m2))
                      end
                  end
              end
          end
      end.

Definition default_days : Z := 7.

(** ** The script from its first line to the loading of the storage *)

Module Startup.

(** What a file at [MODEL_PATH], or the body of a download, may be: a dump
    that [joblib.load] accepts, or anything else. *)
Inductive artifact :=
| Pickle (model : nat)
| Garbage.

(** What [requests.get] does: it returns a response, or raises (no route to
    the host, name not resolved, connection reset). *)
Inductive fetched :=
| Response (status_code : Z) (body : artifact)
| RequestException.

(** The surroundings of one run. *)
Record world := mkWorld {
  model_file : option artifact;
  remote : fetched
}.

(** Calls of [st.error]. *)
Inductive report :=
| DownloadFailed (status_code : Z)
| LoadFailed.

Record session := mkSession {
  model : option nat;
  model_loaded : bool;
  reports : list report;
  model_file_after : option artifact
}.

(** Lines 24-30.  [None]: [requests.get] raised; nothing catches it. *)
Definition fetch_model (w : world) : option (option artifact * list report) :=
  match model_file w with
  | Some a => Some (Some a, [])
  | None =>
      match remote w with
      | RequestException => None
      | Response status_code body =>
          if status_code =? 200 then Some (Some body, [])
          else Some (None, [DownloadFailed status_code])
      end
  end.

(** Lines 33-38: [joblib.load] inside [try]. *)
Definition load_model (file : option artifact) (reps : list report)
  : session :=
  match file with
  | Some (Pickle m) => mkSession (Some m) true reps file
  | _ => mkSession None false (reps ++ [LoadFailed]) file
  end.

Inductive outcome :=
| Aborted
| Ran (s : session) (df_storage : result DataFrame).

(** Lines 24-201: the model is fetched and loaded, the helpers are defined,
    and [df_storage = load_storage()] runs.  An exception that nothing
    catches ends the run where it is raised.  (The calls that lay out the
    page, between the two, are left out.) *)
Definition main (w : world) (s : storage) : outcome * storage :=
  match fetch_model w with
  | None => (Aborted, s)
  | Some (file, reps) =>
      let sess := load_model file reps in
      let (df, s') := load_storage s in
      (Ran sess df, s')
  end.

End Startup.

(** ** Well-formed ledgers and entries *)

(** The kinds of the columns of the canonical schema. *)
Inductive kind := KDate | KNum | KStr.

Definition kind_of (c : string) : kind :=
  if String.eqb c "Fake_date" then KDate
  else if String.eqb c "Occupation" || String.eqb c "City_Tier" then KStr
  else KNum.

(** A field of the kind of its column: a calendar date, a 64-bit integer,
    a plain text. *)
Definition field_ok (k : kind) (f : field) : bool :=
  match f, k with
  | FDate t, KDate => calendar_date t
  | FInt n, KNum => int64 n
  | FText s, KStr => plain_text s
  | _, _ => false
  end.

Definition value_ok (k : kind) (v : value) : bool :=
  match v, k with
  | VDate t, KDate => calendar_date t
  | VInt n, KNum => int64 n
  | VStr (FText s), KStr => plain_text s
  | _, _ => false
  end.

Fixpoint line_ok (cols : list string) (l : list field) : bool :=
  match cols, l with
  | [], [] => true
  | c :: cols', f :: l' => field_ok (kind_of c) f && line_ok cols' l'
  | _, _ => false
  end.

Fixpoint row_ok (cols : list string) (r : list value) : bool :=
  match cols, r with
  | [], [] => true
  | c :: cols', v :: r' => value_ok (kind_of c) v && row_ok cols' r'
  | _, _ => false
  end.

Definition list_eqb (a b : list string) : bool :=
  if list_eq_dec string_dec a b then true else false.

(** A state of the storage that the application itself produces from
    well-typed rows: no file yet, or the canonical header followed by lines
    with one field of the right kind per column. *)
Definition ledger_state (s : storage) : bool :=
  match s with
  | None => true
  | Some Blank => false
  | Some (Table h ls) =>
      list_eqb h storage_columns && forallb (line_ok storage_columns) ls
  end.

Definition present (o : option value) : bool :=
  match o with Some _ => true | None => false end.

(** A row of the canonical schema: a value under every column and under no
    other key, each of the kind of its column. *)
Definition entry_typed (row : dict) : bool :=
  forallb (fun p => mem (fst p) storage_columns
                    && value_ok (kind_of (fst p)) (snd p)) row
  && forallb (fun c => present (dict_get row c)) storage_columns.

(** The cells of a row in column order, NaN where the row has no key. *)
Definition entry_row (row : dict) : list value :=
  map (fun c => or_nan (dict_get row c)) storage_columns.

Definition is_date (o : option value) : bool :=
  match o with Some (VDate _) => true | _ => false end.

Definition is_text (o : option value) : bool :=
  match o with Some (VStr (FText _)) => true | _ => false end.

Definition is_amount (o : option value) : bool :=
  match o with Some (VInt n) => 0 <=? n | _ => false end.

Definition int_of (o : option value) : Z :=
  match o with Some (VInt n) => n | _ => 0 end.

Definition value_eqb (a b : value) : bool :=
  match a, b with
  | VInt x, VInt y => x =? y
  | _, _ => false
  end.

(** An expense entry of the data model: every field present and of its
    type, the amounts not negative, the total the sum of the categories and
    the disposable income the income less the total. *)
Definition valid_entry (e : dict) : bool :=
  entry_typed e
  && is_date (dict_get e "Fake_date")
  && is_amount (dict_get e "Income")
  && is_amount (dict_get e "Age")
  && is_amount (dict_get e "Dependents")
  && is_text (dict_get e "Occupation")
  && is_text (dict_get e "City_Tier")
  && forallb (fun c => is_amount (dict_get e c)) CATEGORIES
  && match compute_total e with
     | Ok t => value_eqb (or_nan (dict_get e "Total_Expenses")) t
     | _ => false
     end
  && value_eqb (or_nan (dict_get e "Disposable_Income"))
       (VInt (int_of (dict_get e "Income")
              - int_of (dict_get e "Total_Expenses"))).

(** The date of a row of [df], when it has one. *)
Definition date_of (cols : list string) (r : list value) : option Timestamp :=
  match row_get cols r "Fake_date" with
  | Some (VDate t) => Some t
  | _ => None
  end.

(** How a cell of the date column answers the two comparisons. *)
Definition answer (op : Z -> Z -> bool) (t : Timestamp) (v : value) : bool :=
  match v with VDate x => op x t | _ => false end.

Definition date_or_nat (v : value) : bool :=
  match v with VDate t => in_bounds t | VNaN => true | _ => false end.

(** The cells of the date column of a frame. *)
Definition date_cells (df : DataFrame) : list value :=
  map (fun r => or_nan (row_get (columns df) r "Fake_date")) (rows df).

(** The date column of [df] is a column of dates: it holds dates and NaT
    only, and not NaT only. *)
Definition dated (df : DataFrame) : bool :=
  mem "Fake_date" (columns df)
  && forallb date_or_nat (date_cells df)
  && negb (all_missing (date_cells df)).

Definition in_window (cols : list string) (start end_date : Timestamp)
  (r : list value) : bool :=
  match date_of cols r with
  | Some t => (start <=? t) && (t <=? end_date)
  | None => false
  end.

(** The window can be formed: its end is a Timestamp, its span a Timedelta
    and its start a Timestamp. *)
Definition window_ok (end_date : Timestamp) (days : Z) : bool :=
  in_bounds end_date
  && in_bounds (Timedelta_days (days - 1))
  && in_bounds (end_date - Timedelta_days (days - 1)).

(** How a field of a well-formed ledger is read. *)
Definition value_of_field (f : field) : value :=
  match f with
  | FEmpty => VNaN
  | FInt n => VInt n
  | FDate t => VDate t
  | FText s => VStr (FText s)
  end.

(** How a line is read once its date and its income have become text:
    the two as the strings they hold, the rest as before. *)
Definition as_text (l : list field) : list value :=
  match l with
  | date :: income :: rest =>
      VStr date :: VStr income :: map value_of_field rest
  | _ => map value_of_field l
  end.

(** The entries that a well-formed ledger file holds. *)
Definition stored_rows (s : storage) : list (list value) :=
  match s with
  | Some (Table _ ls) => map (map value_of_field) ls
  | _ => []
  end.

Definition stored_lines (s : storage) : list (list field) :=
  match s with
  | Some (Table _ ls) => ls
  | _ => []
  end.

(** The storage once the line of [row] has been added to those of [s]. *)
Definition appended (s : storage) (row : dict) : storage :=
  Some (Table storage_columns
          (stored_lines s ++ [map field_of_value (entry_row row)])).

(** The sum of the category amounts of a row, an absent one counting 0. *)
Definition category_sum (row : dict) : Z :=
  fold_right Z.add 0 (map (fun c => int_of (dict_get row c)) CATEGORIES).

(** An amount small enough for eleven of them to be added in 64 bits. *)
Definition small (n : Z) : bool :=
  (- 2 ^ 59 <=? n) && (n <=? 2 ^ 59).

Definition small_or_absent (o : option value) : bool :=
  match o with
  | None => true
  | Some (VInt n) => small n
  | _ => false
  end.

(** The interquartile range of a series, as [anomaly_iqr] computes it. *)
Definition iqr_of (series : Series.t Num.num) : Num.num :=
  Num.sub (Series.quantile series (3 # 4)) (Series.quantile series (1 # 4)).

(** The range is zero or undefined. *)
Definition no_spread (series : Series.t Num.num) : Prop :=
  match iqr_of series with
  | Some d => (d == 0)%Q
  | None => True
  end.

(** The series has fewer than two distinct values. *)
Definition few_distinct (series : Series.t Num.num) : Prop :=
  forall x y,
    In (Some x) (Series.values series) ->
    In (Some y) (Series.values series) -> (x == y)%Q.

(** ** Notions used to state further properties *)

(** The lines of a file that are not blank. *)
Definition data_lines (ls : list (list field)) : list (list field) :=
  filter (fun l => negb (blank_line l)) ls.

(** One call of [save_entry] per row, in order. *)
Fixpoint save_entries (rows : list dict) : M unit :=
  match rows with
  | [] => ret tt
  | row :: rest => save_entry row ;;; save_entries rest
  end.

(** A string or a date: what Python refuses to add to a number. *)
Definition not_a_number (v : value) : bool :=
  match v with VStr _ | VDate _ => true | _ => false end.

Definition small_amount_or_absent (o : option value) : bool :=
  match o with
  | None => true
  | Some (VInt n) => (0 <=? n) && (n <=? 2 ^ 59)
  | _ => false
  end.

(** A category value that the sum takes without leaving 64 bits. *)
Definition summable (v : value) : bool :=
  match v with VInt n => small n | _ => true end.

(** The accumulator of the sum after some categories: NaN, or an integer
    that has room left for the others. *)
Definition room (k : Z) (acc : value) : Prop :=
  match acc with
  | VInt a => - k * 2 ^ 59 <= a <= k * 2 ^ 59
  | VNaN => True
  | _ => False
  end.

(** A date cell that is a Timestamp, or no date at all. *)
Definition date_in_bounds (v : value) : bool :=
  match v with VDate t => in_bounds t | _ => true end.

(** The span of the window is no Timedelta, or its start is no Timestamp
    (nor the least 64-bit integer, which is NaT). *)
Definition window_overflows (end_date : Timestamp) (days : Z) : bool :=
  negb (in_bounds (Timedelta_days (days - 1)))
  || negb (in_bounds (end_date - Timedelta_days (days - 1)))
     && negb (end_date - Timedelta_days (days - 1) =? - int64_max - 1).

(** The first day of the window that ends at [end_date]. *)
Definition window_start (now : Timestamp) (end_date : option Timestamp)
  (days : Z) : Timestamp :=
  match end_date with None => normalize now | Some e => e end
  - Timedelta_days (days - 1).

Definition window_end (now : Timestamp) (end_date : option Timestamp)
  : Timestamp :=
  match end_date with None => normalize now | Some e => e end.

(** The value at the fractional position [h] of the sorted values [xs]:
    the body of [Series.quantile]. *)
Definition interpolate (xs : list Q) (x0 : Q) (h : Q) : Q :=
  let n := Z.of_nat (length xs) in
  let lo := Qfloor h in
  let hi := Z.min (lo + 1) (n - 1) in
  let frac := (h - inject_Z lo)%Q in
  let a := nth (Z.to_nat lo) xs x0 in
  let b := nth (Z.to_nat hi) xs x0 in
  (a + (b - a) * frac)%Q.

(** The flag that [anomaly_iqr] gives to one value of a series. *)
Definition flagged (series : Series.t Num.num) (k : Q) (v : Num.num) : bool :=
  let q1 := Series.quantile series (1 # 4) in
  let q3 := Series.quantile series (3 # 4) in
  let iqr := Num.sub q3 q1 in
  if Num.is_zero iqr || Num.isnan iqr then false
  else
    Num.lt v (Num.sub q1 (Num.mul (Some k) iqr))
    || Num.gt v (Num.add q3 (Num.mul (Some k) iqr)).

(** ** Sample data *)

Definition qs (l : list Z) : Series.t Num.num :=
  Series.of_list (map (fun z => Some (inject_Z z)) l).

Definition day (n : Z) : Timestamp := Timedelta_days n.

Definition sample_entry (d : Z) (rent total disposable : Z) : dict :=
  [("Fake_date", VDate (day d)); ("Income", VInt 1000); ("Age", VInt 30);
   ("Dependents", VInt 2); ("Occupation", VStr (FText "Student"));
   ("City_Tier", VStr (FText "Tier_1")); ("Rent", VInt rent);
   ("Loan_Repayment", VInt 0); ("Insurance", VInt 0); ("Groceries", VInt 50);
   ("Transport", VInt 0); ("Eating_Out", VInt 0); ("Entertainment", VInt 0);
   ("Utilities", VInt 0); ("Healthcare", VInt 0); ("Education", VInt 0);
   ("Miscellaneous", VInt 0); ("Total_Expenses", VInt total);
   ("Disposable_Income", VInt disposable)].

Definition sample_line (d : Z) : list field :=
  map field_of_value (entry_row (sample_entry d 300 350 650)).

Definition sample_storage : storage :=
  Some (Table storage_columns [sample_line 19000; sample_line 19001]).

(** A stored table with a malformed date and an amount that is no number. *)
Definition corrupt_storage : storage :=
  Some (Table storage_columns
    [sample_line 19000;
     FText "31/02/20x4" :: FText "a lot" :: tl (tl (sample_line 19001))]).

(** A negative rent, and a total that is not the sum of the categories. *)
Definition invalid_entry : dict := sample_entry 19002 (-300) 350 650.

(** A row whose income is a text. *)
Definition text_income_entry : dict :=
  [("Fake_date", VDate (day 19002)); ("Income", VStr (FText "a lot"));
   ("Age", VInt 30); ("Dependents", VInt 2);
   ("Occupation", VStr (FText "Student"));
   ("City_Tier", VStr (FText "Tier_1")); ("Rent", VInt 300);
   ("Loan_Repayment", VInt 0); ("Insurance", VInt 0); ("Groceries", VInt 50);
   ("Transport", VInt 0); ("Eating_Out", VInt 0); ("Entertainment", VInt 0);
   ("Utilities", VInt 0); ("Healthcare", VInt 0); ("Education", VInt 0);
   ("Miscellaneous", VInt 0); ("Total_Expenses", VInt 350);
   ("Disposable_Income", VInt 650)].

Definition days_ledger : DataFrame :=
  mkDataFrame ["Fake_date"; "Income"]
    [[VDate (day 90); VInt 1]; [VDate (day 92); VInt 2];
     [VDate (day 97); VInt 3]; [VDate (day 100); VInt 4]].

(** An end date one day after the earliest Timestamp. *)
Definition early_end : Timestamp := - int64_max + ns_per_day.

Definition spiked : Series.t Num.num := qs [5; 5; 5; 5; 100].

(** * Properties *)

(** ** Anomaly detector *)

Section AnomalyFacts.

Local Open Scope Q_scope.

Lemma Qlt_bool_iff (a b : Q) : Num.Qlt_bool a b = true <-> a < b.
Proof.
  unfold Num.Qlt_bool. rewrite negb_true_iff. split; intro H.
  - apply Qnot_le_lt. intro Hle. apply Qle_bool_iff in Hle. congruence.
  - destruct (Qle_bool b a) eqn:E; [|reflexivity].
    apply Qle_bool_iff in E. exfalso. exact (Qlt_not_le _ _ H E).
Qed.

Lemma in_insert_sorted (a x : Q) (l : list Q) :
  In x (Series.insert_sorted a l) -> x = a \/ In x l.
Proof.
  induction l as [|b l IH]; simpl.
  - intros [H|[]]; auto.
  - destruct (Qle_bool a b); simpl.
    + intros [H|H]; auto.
    + intros [H|H]; auto. destruct (IH H); auto.
Qed.

Lemma in_sort (x : Q) (l : list Q) : In x (Series.sort l) -> In x l.
Proof.
  induction l as [|a l IH]; simpl; [tauto|].
  intro H. apply in_insert_sorted in H. destruct H; auto.
Qed.

Lemma in_dropna (x : Q) (vals : list Num.num) :
  In x (Series.dropna vals) -> In (Some x) vals.
Proof.
  induction vals as [|[a|] vals IH]; simpl; [tauto| |auto].
  intros [H|H]; [left; congruence | right; auto].
Qed.

(** A quantile of a series with a single distinct value is that value. *)
Lemma quantile_few_distinct (s : Series.t Num.num) (q c : Q) :
  (forall x, In (Some x) (Series.values s) -> x == c) ->
  match Series.quantile s q with
  | Some r => r == c
  | None => Series.dropna (Series.values s) = []
  end.
Proof.
  intro Hc. unfold Series.quantile.
  assert (Hs : forall x, In x (Series.sort (Series.dropna (Series.values s)))
                         -> x == c).
  { intros x Hx. apply Hc, in_dropna, in_sort, Hx. }
  destruct (Series.sort (Series.dropna (Series.values s))) as [|x0 xs] eqn:E.
  - destruct (Series.dropna (Series.values s)) as [|a l] eqn:D; [reflexivity|].
    simpl in E. destruct (Series.sort l); simpl in E;
      [discriminate | destruct (Qle_bool a q0); discriminate].
  - cbv zeta.
    set (lo := Z.to_nat _). set (hi := Z.to_nat _).
    assert (Hn : forall n, nth n (x0 :: xs) x0 == c).
    { intro n. destruct (nth_in_or_default n (x0 :: xs) x0) as [H|H].
      - apply Hs, H.
      - rewrite H. apply Hs. left; reflexivity. }
    rewrite (Hn lo), (Hn hi). ring.
Qed.

Lemma few_distinct_no_spread (s : Series.t Num.num) :
  few_distinct s -> no_spread s.
Proof.
  intro Hf. unfold no_spread, iqr_of.
  destruct (Series.dropna (Series.values s)) as [|c l] eqn:D.
  - unfold Series.quantile. rewrite D. simpl. exact I.
  - assert (Hc : forall x, In (Some x) (Series.values s) -> x == c).
    { intros x Hx. apply Hf; [exact Hx|].
      apply in_dropna. rewrite D. left; reflexivity. }
    pose proof (quantile_few_distinct s (3 # 4) c Hc) as H3.
    pose proof (quantile_few_distinct s (1 # 4) c Hc) as H1.
    destruct (Series.quantile s (3 # 4)) as [q3|];
      destruct (Series.quantile s (1 # 4)) as [q1|]; simpl; auto.
    rewrite H3, H1. ring.
Qed.

Lemma no_spread_guard (s : Series.t Num.num) :
  no_spread s <-> Num.is_zero (iqr_of s) || Num.isnan (iqr_of s) = true.
Proof.
  unfold no_spread. destruct (iqr_of s) as [d|]; simpl.
  - rewrite orb_false_r. symmetry. apply Qeq_bool_iff.
  - tauto.
Qed.

Lemma anomaly_iqr_no_spread (s : Series.t Num.num) (k : Q) :
  no_spread s -> anomaly_iqr s k = Series.const_like false s.
Proof.
  intro H. apply no_spread_guard in H. unfold anomaly_iqr.
  fold (iqr_of s). rewrite H. reflexivity.
Qed.

Lemma anomaly_iqr_spread (s : Series.t Num.num) (k q1 q3 : Q) :
  Series.quantile s (1 # 4) = Some q1 ->
  Series.quantile s (3 # 4) = Some q3 ->
  ~ q3 - q1 == 0 ->
  anomaly_iqr s k =
  Series.map_values
    (fun v => Num.lt v (Some (q1 - k * (q3 - q1)))
              || Num.gt v (Some (q3 + k * (q3 - q1)))) s.
Proof.
  intros H1 H3 Hne. unfold anomaly_iqr. rewrite H1, H3. simpl.
  destruct (Qeq_bool (q3 - q1) 0) eqn:E.
  - apply Qeq_bool_iff in E. contradiction.
  - reflexivity.
Qed.

Lemma anomaly_iqr_index (s : Series.t Num.num) (k : Q) :
  Series.index (anomaly_iqr s k) = Series.index s.
Proof.
  unfold anomaly_iqr, Series.index.
  destruct (_ || _); unfold Series.const_like, Series.map_values;
    rewrite map_map; reflexivity.
Qed.

Lemma const_like_false {A} (s : Series.t A) (p : Series.label * bool) :
  In p (Series.const_like false s) -> snd p = false.
Proof.
  unfold Series.const_like. rewrite in_map_iff.
  intros [x [<- _]]. reflexivity.
Qed.

Lemma flag_iff (v : Num.num) (lower upper : Q) :
  Num.lt v (Some lower) || Num.gt v (Some upper) = true <->
  exists x, v = Some x /\ (x < lower \/ upper < x).
Proof.
  destruct v as [x|]; simpl.
  - rewrite orb_true_iff, !Qlt_bool_iff. split.
    + intro H. exists x. auto.
    + intros [y [E H]]. injection E as ->. exact H.
  - split; [discriminate | intros [x [E _]]; discriminate].
Qed.

End AnomalyFacts.

Section DetectorFacts.

Variable A : arithmetic.

Lemma anomaly_iqr_in_index (s : Series.t (number A)) (k : number A) :
  Series.index (anomaly_iqr_in A s k) = Series.index s.
Proof.
  unfold anomaly_iqr_in, Series.index.
  destruct (_ || _); unfold Series.const_like, Series.map_values;
    rewrite map_map; reflexivity.
Qed.

End DetectorFacts.

Lemma anomaly_iqr_exact (s : Series.t Num.num) (k : Q) :
  anomaly_iqr s k = anomaly_iqr_in exact_arithmetic s (Some k).
Proof. reflexivity. Qed.




(** C6.  A series with fewer than two distinct values, an empty series
    included, has an interquartile range that is zero or undefined; and for
    every series whose range is zero or undefined the detector returns,
    without raising, false under every index label of the input.  The
    constant series [5,5,5,5,5] gets five times false. *)
Theorem anomaly_iqr_degenerate (s : Series.t Num.num) (k : Q) :
  (few_distinct s -> no_spread s)
  /\ (no_spread s ->
      anomaly_iqr s k = Series.const_like false s
      /\ Series.index (anomaly_iqr s k) = Series.index s
      /\ length (anomaly_iqr s k) = length s
      /\ forall p, In p (anomaly_iqr s k) -> snd p = false)
  /\ Series.values (anomaly_iqr (qs [5; 5; 5; 5; 5]) default_k)
     = [false; false; false; false; false].
Proof.
  split; [apply few_distinct_no_spread|].
  split; [|vm_compute; reflexivity].
  intro H. rewrite (anomaly_iqr_no_spread s k H).
  repeat split.
  - unfold Series.index, Series.const_like. rewrite map_map. reflexivity.
  - unfold Series.const_like. apply length_map.
  - apply const_like_false.
Qed.

Lemma anomaly_iqr_degenerate_witness :
  anomaly_iqr (qs [5; 5; 5; 5; 5]) default_k
  = Series.const_like false (qs [5; 5; 5; 5; 5])
  /\ anomaly_iqr (Series.of_list [Num.nan; Num.nan]) default_k
     = Series.const_like false (Series.of_list [Num.nan; Num.nan]).
Proof.
  split.
  - refine (proj1 (proj1 (proj2
      (anomaly_iqr_degenerate (qs [5; 5; 5; 5; 5]) default_k)) _)).
    vm_compute. reflexivity.
  - refine (proj1 (proj1 (proj2
      (anomaly_iqr_degenerate (Series.of_list [Num.nan; Num.nan]) default_k)) _)).
    vm_compute. exact I.
Defined.

(** ** Week window *)

Section WindowFacts.

Lemma compare_with_dates (op : Z -> Z -> bool) (col : list value)
  (t : Timestamp) :
  forallb date_or_nat col = true ->
  compare_with op col t = Ok (map (answer op t) col).
Proof.
  induction col as [|v col IH]; simpl; [reflexivity|].
  rewrite andb_true_iff. intros [Hv Hc].
  destruct v; simpl in Hv; try discriminate; rewrite ?Hv, (IH Hc);
    reflexivity.
Qed.

Lemma select_mask_and {A} (f g : A -> bool) (l : list A) :
  select (mask_and (map f l) (map g l)) l = filter (fun x => f x && g x) l.
Proof.
  induction l as [|x l IH]; simpl; [reflexivity|].
  rewrite IH. reflexivity.
Qed.

Lemma answers_in_window (cols : list string) (start e : Timestamp)
  (r : list value) :
  answer Z.geb start (or_nan (row_get cols r "Fake_date"))
  && answer Z.leb e (or_nan (row_get cols r "Fake_date"))
  = in_window cols start e r.
Proof.
  unfold in_window, date_of.
  destruct (row_get cols r "Fake_date") as [[| | |]|]; simpl;
    try reflexivity.
  rewrite Z.geb_leb. reflexivity.
Qed.

Lemma in_window_iff (cols : list string) (start e : Timestamp)
  (r : list value) :
  in_window cols start e r = true <->
  exists t, date_of cols r = Some t /\ start <= t <= e.
Proof.
  unfold in_window. destruct (date_of cols r) as [t|].
  - rewrite andb_true_iff, !Z.leb_le. split.
    + intro H. exists t. auto.
    + intros [t' [E H]]. injection E as ->. exact H.
  - split; [discriminate | intros [t [E _]]; discriminate].
Qed.

Lemma dated_not_empty_columns (df : DataFrame) :
  dated df = true -> columns df <> [].
Proof.
  unfold dated. destruct (columns df); [discriminate | discriminate].
Qed.

Lemma dated_parts (df : DataFrame) :
  dated df = true ->
  mem "Fake_date" (columns df) = true
  /\ forallb date_or_nat (date_cells df) = true
  /\ all_missing (date_cells df) = false.
Proof.
  unfold dated. rewrite !andb_true_iff, negb_true_iff. tauto.
Qed.

(** What the span and the start of a window that can be formed are. *)
Lemma window_ok_steps (e : Timestamp) (days : Z) :
  window_ok e days = true ->
  in_bounds e = true
  /\ Timedelta (days - 1) = Ok (Timedelta_days (days - 1))
  /\ Timestamp_sub e (Timedelta_days (days - 1))
     = Ok (e - Timedelta_days (days - 1)).
Proof.
  unfold window_ok, Timedelta, Timestamp_sub. rewrite !andb_true_iff.
  intros [[He Hd] Hs]. rewrite Hd, Hs. auto.
Qed.

(** On a frame whose date column holds dates, and for a window that can be
    formed, the window is a filter. *)
Lemma get_week_df_filter (now : Timestamp) (df : DataFrame)
  (end_date : option Timestamp) (days : Z) :
  dated df = true ->
  let e := match end_date with None => normalize now | Some e => e end in
  window_ok e days = true ->
  get_week_df now df end_date days =
  Ok (mkDataFrame (columns df)
        (filter (in_window (columns df) (e - Timedelta_days (days - 1)) e)
                (rows df))).
Proof.
  intros Hd e Hw. pose proof (dated_not_empty_columns df Hd) as Hc.
  destruct (window_ok_steps e days Hw) as [He [Hdelta Hstart]].
  unfold get_week_df. destruct (empty df) eqn:Hemp.
  - destruct df as [cols rs]. unfold empty in Hemp. simpl in *.
    destruct cols; [congruence|]. destruct rs; [reflexivity|discriminate].
  - fold e. rewrite He. cbn [negb]. rewrite Hdelta, Hstart.
    destruct (dated_parts df Hd) as [Hm [Hcol Hmiss]].
    unfold column. rewrite Hm. fold (date_cells df). rewrite Hmiss.
    rewrite !(compare_with_dates _ _ _ Hcol). unfold date_cells.
    rewrite !map_map.
    unfold loc. f_equal. f_equal.
    rewrite (select_mask_and
      (fun r => answer Z.geb _ (or_nan (row_get (columns df) r "Fake_date")))
      (fun r => answer Z.leb _ (or_nan (row_get (columns df) r "Fake_date")))).
    apply filter_ext. intro r. apply answers_in_window.
Qed.

Lemma normalize_today (now : Timestamp) :
  normalize now <= now < normalize now + ns_per_day
  /\ normalize now mod ns_per_day = 0.
Proof.
  unfold normalize.
  assert (Hpos : 0 < ns_per_day) by reflexivity.
  pose proof (Z.mod_pos_bound now ns_per_day Hpos) as Hb.
  split; [lia|].
  rewrite Zminus_mod_idemp_r, Z.sub_diag. reflexivity.
Qed.

End WindowFacts.

(** C2 as stated fails for an end date next to the earliest Timestamp: the
    start of the window, six days before, is no Timestamp, and
    [get_week_df] raises where the claim has it return the entries up to
    the end date. *)
Lemma week_start_out_of_bounds :
  dated days_ledger = true
  /\ in_bounds early_end = true
  /\ get_week_df 0 days_ledger (Some early_end) default_days
     = Raise OutOfBounds.
Proof. repeat split. Qed.

(** C2, as the code has it.  On every ledger whose date column holds dates,
    and for every end date [D] such that [D] and [D - 6 days] are
    Timestamps, the window of 7 days ending at [D] is made of exactly the
    entries dated in [[D - 6 days, D]], bounds included, in their order;
    without an end date the window ends today at midnight; and of four
    entries dated D-10, D-8, D-3 and D exactly the last two are returned. *)
Theorem get_week_df_window (now : Timestamp) (df : DataFrame)
  (D : Timestamp) :
  dated df = true ->
  window_ok D default_days = true ->
  (exists week,
     get_week_df now df (Some D) default_days = Ok week
     /\ columns week = columns df
     /\ rows week
        = filter (in_window (columns df) (D - Timedelta_days 6) D) (rows df)
     /\ forall r,
          In r (rows week) <->
          In r (rows df)
          /\ exists t, date_of (columns df) r = Some t
                       /\ D - Timedelta_days 6 <= t <= D)
  /\ get_week_df now df None default_days
     = get_week_df now df (Some (normalize now)) default_days
  /\ (normalize now <= now < normalize now + ns_per_day
      /\ normalize now mod ns_per_day = 0)
  /\ (forall r1 r2 r3 r4,
        rows df = [r1; r2; r3; r4] ->
        date_of (columns df) r1 = Some (D - Timedelta_days 10) ->
        date_of (columns df) r2 = Some (D - Timedelta_days 8) ->
        date_of (columns df) r3 = Some (D - Timedelta_days 3) ->
        date_of (columns df) r4 = Some D ->
        get_week_df now df (Some D) default_days
        = Ok (mkDataFrame (columns df) [r3; r4])).
Proof.
  intros Hd Hw.
  pose proof (get_week_df_filter now df (Some D) default_days Hd Hw) as HD.
  change (default_days - 1) with 6 in HD.
  split.
  { eexists. split; [exact HD|]. simpl. repeat split.
    - rewrite filter_In, in_window_iff in H. tauto.
    - rewrite filter_In, in_window_iff in H. tauto.
    - intros [Hin Ht]. rewrite filter_In, in_window_iff. auto. }
  split; [reflexivity|].
  split; [apply normalize_today|].
  intros r1 r2 r3 r4 Hr H1 H2 H3 H4. rewrite HD, Hr. simpl.
  unfold in_window. rewrite H1, H2, H3, H4.
  unfold Timedelta_days, ns_per_day.
  repeat match goal with
  | |- context [(?a <=? ?b) && (?c <=? ?d)] =>
      let E1 := fresh in let E2 := fresh in
      destruct (Z.leb_spec a b) as [E1|E1];
      destruct (Z.leb_spec c d) as [E2|E2]; try lia; simpl
  end.
  reflexivity.
Qed.

Lemma get_week_df_window_witness :
  get_week_df 0 days_ledger (Some (day 100)) default_days
  = Ok (mkDataFrame ["Fake_date"; "Income"]
          [[VDate (day 97); VInt 3]; [VDate (day 100); VInt 4]]).
Proof.
  refine (proj2 (proj2 (proj2
    (get_week_df_window 0 days_ledger (day 100) _ _))) _ _ _ _ _ _ _ _ _);
    reflexivity.
Defined.

(** C8 as stated fails for a window that cannot be formed: with a span of
    minus a thousand million days no entry of the ledger is in range, and
    [get_week_df] raises where the claim has it return an empty subset. *)
Lemma empty_window_out_of_bounds :
  dated days_ledger = true
  /\ (forall r, In r (rows days_ledger) ->
        in_window (columns days_ledger)
          (window_start 0 (Some (day 100)) (-1000000000))
          (window_end 0 (Some (day 100))) r = false)
  /\ get_week_df 0 days_ledger (Some (day 100)) (-1000000000)
     = Raise OutOfBounds.
Proof.
  split; [reflexivity|]. split; [|reflexivity].
  intros r Hin. simpl in Hin.
  destruct Hin as [<-|[<-|[<-|[<-|[]]]]]; reflexivity.
Qed.

(** C8, as the code has it.  An empty ledger is returned as it is, whatever
    the window; and when the window can be formed (its end, its span and
    its start fit 64 bits), a ledger with no entry dated in it gives the
    frame with the same columns and no row; both are normal results, not
    exceptions. *)
Theorem get_week_df_no_data (now : Timestamp) (df : DataFrame)
  (end_date : option Timestamp) (days : Z) :
  (empty df = true ->
   get_week_df now df end_date days = Ok df)
  /\ (dated df = true ->
      let e := match end_date with None => normalize now | Some e => e end in
      window_ok e days = true ->
      (forall r t, In r (rows df) -> date_of (columns df) r = Some t ->
                   ~ (e - Timedelta_days (days - 1) <= t <= e)) ->
      get_week_df now df end_date days = Ok (mkDataFrame (columns df) [])
      /\ empty (mkDataFrame (columns df) []) = true).
Proof.
  split.
  - intro He. unfold get_week_df. rewrite He. reflexivity.
  - intros Hd e Hw Hout. split.
    + rewrite (get_week_df_filter now df end_date days Hd Hw). fold e.
      f_equal. f_equal.
      assert (Hall : forall r, In r (rows df) ->
                in_window (columns df) (e - Timedelta_days (days - 1)) e r
                = false).
      { intros r Hin.
        destruct (in_window _ _ _ r) eqn:E; [|reflexivity].
        apply in_window_iff in E. destruct E as [t [Ht Hb]].
        exfalso. exact (Hout r t Hin Ht Hb). }
      induction (rows df) as [|r rs IH]; simpl; [reflexivity|].
      rewrite (Hall r (or_introl eq_refl)). apply IH.
      * intros r' t Hin. apply Hout. right. exact Hin.
      * intros r' Hin. apply Hall. right. exact Hin.
    + unfold empty. simpl. destruct (columns df); reflexivity.
Qed.

Lemma get_week_df_no_data_witness :
  get_week_df 0 (DataFrame_of_columns storage_columns) None default_days
  = Ok (DataFrame_of_columns storage_columns)
  /\ get_week_df 0 days_ledger (Some (day 80)) default_days
     = Ok (mkDataFrame ["Fake_date"; "Income"] []).
Proof.
  split.
  - refine (proj1 (get_week_df_no_data 0
      (DataFrame_of_columns storage_columns) None default_days) _).
    reflexivity.
  - refine (proj1 (proj2 (get_week_df_no_data 0 days_ledger
      (Some (day 80)) default_days) _ _ _)).
    + reflexivity.
    + reflexivity.
    + intros r t Hin Ht. simpl in Hin.
      destruct Hin as [<-|[<-|[<-|[<-|[]]]]]; injection Ht as <-;
        vm_compute; intros [_ H]; apply H; reflexivity.
Defined.

(** ** Ledger store *)

(** Runs the monadic code of [load_storage] on a file that exists. *)
Ltac run_load :=
  unfold load_storage, ensure_storage, bind, path_exists, ret, read_file,
    lift;
  cbn [negb].

(** Runs the monadic code of [save_entry] after the load. *)
Ltac run_save :=
  unfold save_entry, save_entry_interrupted, to_csv_file, write_file,
    open_for_writing, write_out, bind, lift, ret.

Section StorageFacts.

Lemma forallb_impl {A} (p q : A -> bool) (l : list A) :
  (forall x, In x l -> p x = true -> q x = true) ->
  forallb p l = true -> forallb q l = true.
Proof.
  rewrite !forallb_forall. intros H Hp x Hx. apply H; auto.
Qed.

Lemma existsb_none {A} (p q : A -> bool) (l : list A) :
  (forall x, p x = true -> q x = false) ->
  forallb p l = true -> existsb q l = false.
Proof.
  intros H Hp. destruct (existsb q l) eqn:E; [|reflexivity].
  apply existsb_exists in E. destruct E as [x [Hin Hq]].
  rewrite forallb_forall in Hp. rewrite (H x (Hp x Hin)) in Hq.
  discriminate.
Qed.

Lemma field_of_value_of_field (f : field) :
  field_of_value (value_of_field f) = f.
Proof. destruct f; reflexivity. Qed.

Lemma value_of_field_of_value (k : kind) (v : value) :
  value_ok k v = true -> value_of_field (field_of_value v) = v.
Proof.
  destruct v as [| | |[]]; destruct k; simpl; intro H;
    try discriminate; reflexivity.
Qed.

Lemma field_ok_of_value (k : kind) (v : value) :
  value_ok k v = true -> field_ok k (field_of_value v) = true.
Proof.
  destruct v as [| | |[]]; destruct k; simpl; intro H;
    try discriminate; exact H.
Qed.

Lemma value_ok_of_field (k : kind) (f : field) :
  field_ok k f = true -> value_ok k (value_of_field f) = true.
Proof.
  destruct f; destruct k; simpl; intro H; try discriminate; exact H.
Qed.

Lemma field_ok_known (k : kind) (f : field) :
  field_ok k f = true -> known f = true.
Proof.
  destruct f; destruct k; simpl; intro H; try discriminate; exact H.
Qed.

(** Inference gives a column of well-typed fields a dtype, under which
    every one of them is read as its own value. *)
Lemma infer_typed (c : string) (whole : bool) (col : list field) :
  forallb (field_ok (kind_of c)) col = true ->
  exists d,
    infer (mem c ["Fake_date"]) whole col = Some d
    /\ forall f, In f col -> convert d f = value_of_field f.
Proof.
  intro Hcol.
  assert (Hk : forallb known col = true).
  { revert Hcol. apply forallb_impl. intros f _. apply field_ok_known. }
  assert (Hf : forall f, In f col -> field_ok (kind_of c) f = true).
  { rewrite forallb_forall in Hcol. exact Hcol. }
  unfold infer. rewrite Hk. cbn [negb].
  unfold mem, kind_of in *. cbn [existsb].
  destruct (String.eqb c "Fake_date"); cbn [orb].
  - assert (Hd : forallb date_or_empty col = true).
    { revert Hcol. apply forallb_impl. intros [] _; simpl; congruence. }
    rewrite Hd. exists DDate. split; [reflexivity|].
    intros f Hin. specialize (Hf f Hin). destruct f; simpl in *; congruence.
  - destruct (String.eqb c "Occupation" || String.eqb c "City_Tier").
    + destruct col as [|f0 col'].
      * exists DInt. split; [reflexivity|]. intros f [].
      * assert (Hn : forallb int_or_empty (f0 :: col') = false).
        { pose proof (Hf f0 (or_introl eq_refl)) as H0.
          destruct f0; simpl in *; congruence. }
        assert (Hni : existsb is_int_field (f0 :: col') = false).
        { revert Hcol. apply existsb_none. intros []; simpl; congruence. }
        rewrite Hn, Hni. exists DObject. split; [reflexivity|].
        intros f Hin. specialize (Hf f Hin).
        destruct f; simpl in *; congruence.
    + assert (Hi : forallb int_or_empty col = true).
      { revert Hcol. apply forallb_impl. intros [] _; simpl; congruence. }
      assert (He : existsb is_empty_field col = false).
      { revert Hcol. apply existsb_none. intros []; simpl; congruence. }
      rewrite Hi, He, andb_false_r. exists DInt. split; [reflexivity|].
      intros f Hin. specialize (Hf f Hin).
      destruct f; simpl in *; congruence.
Qed.

Lemma line_ok_heads (c : string) (cols : list string)
  (ls : list (list field)) :
  forallb (line_ok (c :: cols)) ls = true ->
  forallb (field_ok (kind_of c)) (map first_field ls) = true
  /\ forallb (line_ok cols) (map (@tl field) ls) = true.
Proof.
  induction ls as [|l ls IH]; [auto|].
  cbn [forallb map]. rewrite !andb_true_iff. intros [Hl Hls].
  destruct l as [|f l]; [discriminate|]. cbn [line_ok] in Hl.
  apply andb_true_iff in Hl. destruct (IH Hls). cbn [first_field hd tl].
  tauto.
Qed.

Lemma read_typed_lines (whole : bool) (cols : list string) :
  forall ls : list (list field),
    forallb (line_ok cols) ls = true ->
    exists ds,
      infer_dtypes ["Fake_date"] whole cols ls = Some ds
      /\ forall l, In l ls -> convert_line ds l = map value_of_field l.
Proof.
  induction cols as [|c cols IH]; intros ls Hls.
  - exists []. split; [reflexivity|]. intros l Hin.
    rewrite forallb_forall in Hls. specialize (Hls l Hin).
    destruct l; [reflexivity | discriminate].
  - destruct (line_ok_heads c cols ls Hls) as [Hh Ht].
    destruct (infer_typed c whole _ Hh) as [d [Hd Hconv]].
    destruct (IH _ Ht) as [ds [Hds Hline]].
    exists (d :: ds). cbn [infer_dtypes]. rewrite Hd, Hds.
    split; [reflexivity|]. intros l Hin.
    assert (Hl : line_ok (c :: cols) l = true).
    { rewrite forallb_forall in Hls. apply Hls, Hin. }
    destruct l as [|f l']; [discriminate|].
    cbn [convert_line map first_field hd tl]. f_equal.
    + apply Hconv. apply in_map_iff. exists (f :: l'). auto.
    + apply Hline. apply in_map_iff. exists (f :: l'). auto.
Qed.

Lemma line_ok_length (cols : list string) (l : list field) :
  line_ok cols l = true -> length l = length cols.
Proof.
  revert l. induction cols as [|c cols IH]; intros [|f l] H;
    try discriminate; [reflexivity|].
  cbn [line_ok] in H. apply andb_true_iff in H. simpl. f_equal. apply IH, H.
Qed.

Lemma row_ok_length (cols : list string) (r : list value) :
  row_ok cols r = true -> length r = length cols.
Proof.
  revert r. induction cols as [|c cols IH]; intros [|v r] H;
    try discriminate; [reflexivity|].
  cbn [row_ok] in H. apply andb_true_iff in H. simpl. f_equal. apply IH, H.
Qed.

(** Lines of the width of a header have nothing for [read_csv] to skip or
    to refuse. *)
Lemma full_lines (h : list string) (ls : list (list field)) :
  h <> [] ->
  Forall (fun l => length l = length h) ls ->
  data_lines ls = ls
  /\ too_long h (hd [] ls) = false
  /\ existsb (too_long h) ls = false.
Proof.
  intros Hh Hls. split; [|split].
  - induction Hls as [|l ls Hl _ IH]; [reflexivity|].
    unfold data_lines in *. cbn [filter].
    destruct l; [destruct h; [congruence | discriminate]|].
    cbn [blank_line negb]. rewrite IH. reflexivity.
  - destruct Hls as [|l ls Hl _]; unfold too_long; cbn [hd].
    + apply Nat.ltb_ge. simpl. lia.
    + apply Nat.ltb_ge. lia.
  - destruct (existsb (too_long h) ls) eqn:E; [|reflexivity].
    apply existsb_exists in E. destruct E as [l [Hin Hl]].
    rewrite Forall_forall in Hls. specialize (Hls l Hin).
    unfold too_long in Hl. apply Nat.ltb_lt in Hl. lia.
Qed.

Lemma typed_lines_full (cols : list string) (ls : list (list field)) :
  forallb (line_ok cols) ls = true ->
  Forall (fun l => length l = length cols) ls.
Proof.
  intro H. rewrite Forall_forall. intros l Hin.
  rewrite forallb_forall in H. apply line_ok_length, H, Hin.
Qed.

Lemma mem_not_nil (c : string) (h : list string) :
  mem c h = true -> h <> [].
Proof. destruct h; [discriminate | discriminate]. Qed.

(** Reading a well-typed table gives back, cell for cell, what it holds. *)
Lemma read_csv_typed (cols : list string) (ls : list (list field)) :
  mem "Fake_date" cols = true ->
  header_ok cols = true ->
  forallb (line_ok cols) ls = true ->
  read_csv (Table cols ls) ["Fake_date"]
  = Ok (mkDataFrame cols (map (map value_of_field) ls)).
Proof.
  intros Hm Hh Hls. pose proof (mem_not_nil _ _ Hm) as Hne.
  destruct (full_lines cols ls Hne (typed_lines_full cols ls Hls))
    as [Hd [Hfirst Hlong]].
  destruct (read_typed_lines (one_piece cols ls) cols ls Hls)
    as [ds [Hds Hline]].
  unfold read_csv. destruct cols as [|c cols']; [congruence|].
  cbn [forallb]. rewrite Hm, Hh. cbn [andb negb].
  fold (data_lines ls). rewrite Hd, Hfirst, Hlong, Hds.
  f_equal. f_equal. apply map_ext_in. exact Hline.
Qed.

Lemma storage_columns_NoDup : NoDup storage_columns.
Proof.
  replace storage_columns with (nodup string_dec storage_columns)
    by (vm_compute; reflexivity).
  apply NoDup_nodup.
Qed.

Lemma row_get_dict (row : dict) (c : string) :
  row_get (map fst row) (map snd row) c = dict_get row c.
Proof.
  induction row as [|[c' v] row IH]; simpl; [reflexivity|].
  destruct (String.eqb c' c); auto.
Qed.

Lemma row_get_map (f : string -> value) (cols : list string) (c : string) :
  In c cols -> row_get cols (map f cols) c = Some (f c).
Proof.
  induction cols as [|c' cols IH]; simpl; [tauto|].
  destruct (String.eqb_spec c' c) as [->|Hne]; [reflexivity|].
  intros [H|H]; [contradiction | auto].
Qed.

Lemma reindex_same (cols : list string) :
  NoDup cols ->
  forall r, length r = length cols -> reindex cols cols r = r.
Proof.
  induction 1 as [|c cols Hnin Hnd IH]; intros [|v r] Hlen;
    try discriminate; [reflexivity|].
  unfold reindex. cbn [map row_get]. rewrite String.eqb_refl. cbn [or_nan].
  f_equal. transitivity (reindex cols cols r).
  - apply map_ext_in. intros c' Hc'. cbn [row_get].
    destruct (String.eqb_spec c c') as [->|_]; [contradiction | reflexivity].
  - apply IH. simpl in Hlen. lia.
Qed.

Lemma entry_typed_no_new_column (cols : list string) (row : dict) :
  forallb (fun p => mem (fst p) cols) row = true ->
  filter (fun c => negb (mem c cols)) (map fst row) = [].
Proof.
  induction row as [|[c v] row IH]; simpl; [reflexivity|].
  rewrite andb_true_iff. intros [Hc Hr]. rewrite Hc. simpl. auto.
Qed.

Lemma entry_typed_keys (row : dict) :
  entry_typed row = true ->
  forallb (fun p => mem (fst p) storage_columns) row = true.
Proof.
  unfold entry_typed. rewrite andb_true_iff. intros [H _]. revert H.
  apply forallb_impl. intros p _ H. apply andb_true_iff in H. apply H.
Qed.

Lemma dict_get_in (row : dict) (c : string) (v : value) :
  dict_get row c = Some v -> In (c, v) row.
Proof.
  induction row as [|[c' v'] row IH]; simpl; [discriminate|].
  destruct (String.eqb_spec c' c) as [->|_].
  - intro H. injection H as ->. auto.
  - auto.
Qed.

Lemma dict_get_typed (row : dict) (c : string) (v : value) :
  entry_typed row = true ->
  dict_get row c = Some v ->
  In c storage_columns /\ value_ok (kind_of c) v = true.
Proof.
  intros Ht Hg. apply dict_get_in in Hg. unfold entry_typed in Ht.
  apply andb_true_iff in Ht. destruct Ht as [Ht _].
  rewrite forallb_forall in Ht. specialize (Ht _ Hg). cbn [fst snd] in Ht.
  apply andb_true_iff in Ht. destruct Ht as [Hm Hv]. split; [|exact Hv].
  unfold mem in Hm. apply existsb_exists in Hm. destruct Hm as [x [Hin Hx]].
  apply String.eqb_eq in Hx. subst. exact Hin.
Qed.

(** A row of the canonical schema has a value under every column. *)
Lemma entry_typed_complete (row : dict) (c : string) :
  entry_typed row = true ->
  In c storage_columns -> exists v, dict_get row c = Some v.
Proof.
  unfold entry_typed. rewrite andb_true_iff. intros [_ H] Hin.
  rewrite forallb_forall in H. specialize (H c Hin).
  destruct (dict_get row c) as [v|]; [eauto | discriminate].
Qed.

Lemma entry_cell_ok (row : dict) (c : string) :
  entry_typed row = true ->
  In c storage_columns ->
  value_ok (kind_of c) (or_nan (dict_get row c)) = true.
Proof.
  intros Ht Hin. destruct (entry_typed_complete row c Ht Hin) as [v E].
  rewrite E. apply (dict_get_typed row c v Ht E).
Qed.

Lemma entry_cells_ok (row : dict) (cols : list string) :
  entry_typed row = true ->
  (forall c, In c cols -> In c storage_columns) ->
  row_ok cols (map (fun c => or_nan (dict_get row c)) cols) = true.
Proof.
  intros Ht. induction cols as [|c cols IH]; intro Hin; [reflexivity|].
  cbn [map row_ok]. rewrite IH by (intros; apply Hin; right; assumption).
  rewrite andb_true_r. apply entry_cell_ok; [exact Ht|]. apply Hin. left.
  reflexivity.
Qed.

Lemma entry_row_ok (row : dict) :
  entry_typed row = true -> row_ok storage_columns (entry_row row) = true.
Proof. intro Ht. apply entry_cells_ok; auto. Qed.

Lemma row_ok_line (cols : list string) (r : list value) :
  row_ok cols r = true -> line_ok cols (map field_of_value r) = true.
Proof.
  revert r. induction cols as [|c cols IH]; intros [|v r] H;
    try discriminate; [reflexivity|].
  cbn [row_ok] in H. apply andb_true_iff in H. destruct H as [Hv Hr].
  cbn [map line_ok]. rewrite (field_ok_of_value _ _ Hv), (IH _ Hr).
  reflexivity.
Qed.

Lemma line_ok_row (cols : list string) (l : list field) :
  line_ok cols l = true -> row_ok cols (map value_of_field l) = true.
Proof.
  revert l. induction cols as [|c cols IH]; intros [|f l] H;
    try discriminate; [reflexivity|].
  cbn [line_ok] in H. apply andb_true_iff in H. destruct H as [Hf Hl].
  cbn [map row_ok]. rewrite (value_ok_of_field _ _ Hf), (IH _ Hl).
  reflexivity.
Qed.

Lemma row_ok_read_back (cols : list string) (r : list value) :
  row_ok cols r = true -> map value_of_field (map field_of_value r) = r.
Proof.
  revert r. induction cols as [|c cols IH]; intros [|v r] H;
    try discriminate; [reflexivity|].
  cbn [row_ok] in H. apply andb_true_iff in H. destruct H as [Hv Hr].
  cbn [map]. rewrite (value_of_field_of_value _ _ Hv), (IH _ Hr).
  reflexivity.
Qed.

Lemma entry_row_read_back (row : dict) :
  entry_typed row = true ->
  map value_of_field (map field_of_value (entry_row row)) = entry_row row.
Proof.
  intro Ht. apply (row_ok_read_back storage_columns), entry_row_ok, Ht.
Qed.

Lemma row_ok_heads (c : string) (cols : list string)
  (rs : list (list value)) :
  forallb (row_ok (c :: cols)) rs = true ->
  forallb (value_ok (kind_of c)) (map (hd VNaN) rs) = true
  /\ forallb (row_ok cols) (map (@tl value) rs) = true.
Proof.
  induction rs as [|r rs IH]; [auto|].
  cbn [forallb map]. rewrite !andb_true_iff. intros [Hr Hrs].
  destruct r as [|v r]; [discriminate|]. cbn [row_ok] in Hr.
  apply andb_true_iff in Hr. destruct (IH Hrs). cbn [hd tl]. tauto.
Qed.

(** No column of a frame of well-typed rows has a property that columns
    of one kind never have. *)
Lemma any_column_typed (p : list value -> bool) :
  (forall k col, forallb (value_ok k) col = true -> p col = false) ->
  forall cols rs,
    forallb (row_ok cols) rs = true ->
    any_column p (length cols) rs = false.
Proof.
  intros Hp. induction cols as [|c cols IH]; intros rs Hrs; [reflexivity|].
  destruct (row_ok_heads c cols rs Hrs) as [Hh Ht].
  cbn [length any_column]. rewrite (Hp _ _ Hh), (IH _ Ht). reflexivity.
Qed.

Lemma typed_never_promotes (k : kind) (col : list value) :
  forallb (value_ok k) col = true -> promotes col = false.
Proof.
  intro H. unfold promotes.
  rewrite (existsb_none (value_ok k) is_nan col); [|
    intros [| | |[]]; destruct k; simpl; congruence | exact H].
  rewrite andb_false_r. reflexivity.
Qed.

Lemma typed_never_mixed (k : kind) (col : list value) :
  forallb (value_ok k) col = true -> mixed_dates col = false.
Proof.
  intro H. unfold mixed_dates. destruct k.
  - rewrite (existsb_none (value_ok KDate) is_int col),
      (existsb_none (value_ok KDate) is_str col);
      try exact H; try (intros [| | |[]]; simpl; congruence).
    cbn [orb]. apply andb_false_r.
  - rewrite (existsb_none (value_ok KNum) is_date_value col);
      [reflexivity | intros []; simpl; congruence | exact H].
  - rewrite (existsb_none (value_ok KStr) is_date_value col);
      [reflexivity | intros [| | |[]]; simpl; congruence | exact H].
Qed.

Lemma row_ok_all (q : value -> bool) :
  (forall k v, value_ok k v = true -> q v = true) ->
  forall cols r, row_ok cols r = true -> forallb q r = true.
Proof.
  intros Hq. induction cols as [|c cols IH]; intros [|v r] H;
    try discriminate; [reflexivity|].
  cbn [row_ok] in H. apply andb_true_iff in H. destruct H as [Hv Hr].
  cbn [forallb]. rewrite (Hq _ _ Hv), (IH _ Hr). reflexivity.
Qed.

Lemma rows_ok_all (q : value -> bool) (cols : list string)
  (rs : list (list value)) :
  (forall k v, value_ok k v = true -> q v = true) ->
  forallb (row_ok cols) rs = true -> forallb (forallb q) rs = true.
Proof.
  intros Hq. apply forallb_impl. intros r _. apply (row_ok_all q Hq).
Qed.

Lemma value_ok_int_fits (k : kind) (v : value) :
  value_ok k v = true -> int_fits v = true.
Proof.
  destruct v as [| | |[]]; destruct k; simpl; intro H;
    try discriminate; try reflexivity; exact H.
Qed.

Lemma value_ok_date_fits (k : kind) (v : value) :
  value_ok k v = true -> date_fits v = true.
Proof.
  destruct v as [| | |[]]; destruct k; simpl; intro H;
    try discriminate; try reflexivity; exact H.
Qed.

Lemma mem_Fake_date : mem "Fake_date" storage_columns = true.
Proof. reflexivity. Qed.

Lemma header_ok_storage_columns : header_ok storage_columns = true.
Proof. reflexivity. Qed.

Lemma ledger_state_cases (s : storage) :
  ledger_state s = true ->
  s = None
  \/ exists ls, s = Some (Table storage_columns ls)
               /\ forallb (line_ok storage_columns) ls = true.
Proof.
  destruct s as [[|h ls]|]; cbn [ledger_state]; auto; [discriminate|].
  rewrite andb_true_iff. unfold list_eqb.
  destruct (list_eq_dec string_dec h storage_columns) as [->|];
    intros [H1 H2]; [right; exists ls; auto | discriminate].
Qed.

Lemma ledger_lines_ok (s : storage) :
  ledger_state s = true ->
  forallb (line_ok storage_columns) (stored_lines s) = true.
Proof.
  intro H. destruct (ledger_state_cases s H) as [->|[ls [-> Hl]]];
    [reflexivity | exact Hl].
Qed.

Lemma stored_rows_lines (s : storage) :
  stored_rows s = map (map value_of_field) (stored_lines s).
Proof. destruct s as [[|]|]; reflexivity. Qed.

Lemma stored_rows_ok (s : storage) :
  ledger_state s = true ->
  forallb (row_ok storage_columns) (stored_rows s) = true.
Proof.
  intro H. pose proof (ledger_lines_ok s H) as Hl.
  rewrite stored_rows_lines, forallb_forall. intros r Hr.
  apply in_map_iff in Hr. destruct Hr as [l [<- Hin]].
  rewrite forallb_forall in Hl. apply line_ok_row, Hl, Hin.
Qed.

(** What [load_storage] does on a well-formed ledger: the file is created
    if need be, and its entries are returned. *)
Lemma load_storage_ledger (s : storage) :
  ledger_state s = true ->
  load_storage s
  = (Ok (mkDataFrame storage_columns (stored_rows s)),
     Some (Table storage_columns (stored_lines s))).
Proof.
  intro H. destruct (ledger_state_cases s H) as [->|[ls [-> Hl]]].
  - reflexivity.
  - run_load. cbn [stored_rows stored_lines].
    rewrite (read_csv_typed _ _ mem_Fake_date header_ok_storage_columns Hl).
    reflexivity.
Qed.

Lemma concat_entry (old : list (list value)) (row : dict) :
  forallb (row_ok storage_columns) old = true ->
  entry_typed row = true ->
  concat (mkDataFrame storage_columns old) (DataFrame_of_row row)
  = Ok (mkDataFrame storage_columns (old ++ [entry_row row])).
Proof.
  intros Hold Ht. unfold concat, DataFrame_of_row. cbn [columns rows].
  rewrite (entry_typed_no_new_column _ _ (entry_typed_keys row Ht)).
  rewrite app_nil_r.
  assert (Ho : map (reindex storage_columns storage_columns) old = old).
  { rewrite <- (map_id old) at 2. apply map_ext_in. intros r Hr.
    apply (reindex_same _ storage_columns_NoDup), row_ok_length.
    rewrite forallb_forall in Hold. apply Hold, Hr. }
  assert (Hn : reindex (map fst row) storage_columns (map snd row)
               = entry_row row).
  { unfold reindex, entry_row. apply map_ext. intro c.
    rewrite row_get_dict. reflexivity. }
  cbn [map]. rewrite Ho, Hn.
  assert (Hall : forallb (row_ok storage_columns) (old ++ [entry_row row])
                 = true).
  { rewrite forallb_app, Hold. cbn [forallb].
    rewrite (entry_row_ok row Ht). reflexivity. }
  rewrite (any_column_typed promotes typed_never_promotes _ _ Hall).
  rewrite (rows_ok_all int_fits _ _ value_ok_int_fits Hall).
  reflexivity.
Qed.

Lemma to_csv_typed (rs : list (list value)) :
  forallb (row_ok storage_columns) rs = true ->
  to_csv (mkDataFrame storage_columns rs)
  = Ok (Table storage_columns (map (map field_of_value) rs)).
Proof.
  intro H. unfold to_csv. cbn [columns rows].
  rewrite (any_column_typed mixed_dates typed_never_mixed _ _ H).
  rewrite (any_column_typed promotes typed_never_promotes _ _ H).
  rewrite (rows_ok_all date_fits _ _ value_ok_date_fits H).
  rewrite (rows_ok_all int_fits _ _ value_ok_int_fits H).
  reflexivity.
Qed.

Lemma stored_lines_written (s : storage) :
  map (map field_of_value) (stored_rows s) = stored_lines s.
Proof.
  rewrite stored_rows_lines, map_map.
  rewrite <- (map_id (stored_lines s)) at 2. apply map_ext. intro l.
  rewrite map_map. rewrite <- (map_id l) at 2. apply map_ext.
  apply field_of_value_of_field.
Qed.

(** What [save_entry] writes on a well-formed ledger and a row of the
    canonical schema: the lines that were there, then the line of the
    row. *)
Lemma save_entry_ledger (s : storage) (row : dict) :
  ledger_state s = true ->
  entry_typed row = true ->
  save_entry row s = (Ok tt, appended s row).
Proof.
  intros Hs Ht. pose proof (stored_rows_ok s Hs) as Hold.
  run_save. rewrite (load_storage_ledger s Hs).
  rewrite (concat_entry _ _ Hold Ht).
  rewrite to_csv_typed
    by (rewrite forallb_app, Hold; cbn [forallb];
        rewrite (entry_row_ok row Ht); reflexivity).
  rewrite map_app, stored_lines_written. reflexivity.
Qed.

Lemma save_entry_interrupted_ledger (s : storage) (row : dict) :
  ledger_state s = true ->
  entry_typed row = true ->
  snd (save_entry_interrupted row s) = Some Blank.
Proof.
  intros Hs Ht. pose proof (stored_rows_ok s Hs) as Hold.
  run_save. rewrite (load_storage_ledger s Hs).
  rewrite (concat_entry _ _ Hold Ht).
  rewrite to_csv_typed
    by (rewrite forallb_app, Hold; cbn [forallb];
        rewrite (entry_row_ok row Ht); reflexivity).
  reflexivity.
Qed.

Lemma appended_ledger_state (s : storage) (row : dict) :
  ledger_state s = true ->
  entry_typed row = true ->
  ledger_state (appended s row) = true.
Proof.
  intros Hs Ht. unfold appended, ledger_state.
  apply andb_true_iff. split.
  - unfold list_eqb. destruct (list_eq_dec _ _ _); [reflexivity|congruence].
  - rewrite forallb_app, (ledger_lines_ok s Hs). cbn [forallb andb].
    rewrite andb_true_r. apply row_ok_line, entry_row_ok, Ht.
Qed.

Lemma appended_rows (s : storage) (row : dict) :
  entry_typed row = true ->
  stored_rows (appended s row) = stored_rows s ++ [entry_row row].
Proof.
  intro Ht. unfold appended. cbn [stored_rows]. rewrite map_app. cbn [map].
  rewrite (entry_row_read_back row Ht).
  destruct s as [[|h ls]|]; reflexivity.
Qed.

(** The ledger read after an append: the old entries, then the new one. *)
Lemma load_after_save (s : storage) (row : dict) :
  ledger_state s = true ->
  entry_typed row = true ->
  load_storage (appended s row)
  = (Ok (mkDataFrame storage_columns (stored_rows s ++ [entry_row row])),
     appended s row).
Proof.
  intros Hs Ht.
  rewrite (load_storage_ledger _ (appended_ledger_state s row Hs Ht)).
  rewrite (appended_rows s row Ht). reflexivity.
Qed.

(** The ledger that [load_storage] returns is one [get_week_df] accepts. *)
Lemma stored_ledger_dated (s : storage) :
  ledger_state s = true ->
  dated (mkDataFrame storage_columns (stored_rows s)) = true.
Proof.
  intro Hs. pose proof (ledger_lines_ok s Hs) as Hl.
  assert (Hcell : forall r, In r (stored_rows s) ->
            exists t, or_nan (row_get storage_columns r "Fake_date")
                      = VDate t /\ in_bounds t = true).
  { rewrite stored_rows_lines. intros r Hr. apply in_map_iff in Hr.
    destruct Hr as [l [<- Hin]]. rewrite forallb_forall in Hl.
    specialize (Hl l Hin). destruct l as [|f l]; [discriminate|].
    unfold storage_columns in *. cbn [app line_ok map row_get] in *.
    apply andb_true_iff in Hl. destruct Hl as [Hf _].
    destruct f as [| |t|]; try discriminate. cbn [kind_of field_ok] in Hf.
    exists t. split; [reflexivity|].
    unfold calendar_date in Hf. apply andb_true_iff in Hf. apply Hf. }
  unfold dated, date_cells. cbn [columns rows]. rewrite mem_Fake_date.
  cbn [andb]. apply andb_true_iff. split.
  - rewrite forallb_forall. intros v Hv. apply in_map_iff in Hv.
    destruct Hv as [r [<- Hin]]. destruct (Hcell r Hin) as [t [-> Ht]].
    exact Ht.
  - destruct (stored_rows s) as [|r rs]; [reflexivity|].
    destruct (Hcell r (or_introl eq_refl)) as [t [E _]].
    cbn [map all_missing forallb]. rewrite E. reflexivity.
Qed.

Lemma appended_differs (s : storage) (row : dict) : appended s row <> s.
Proof.
  unfold appended. destruct s as [[|h ls]|]; try discriminate.
  intro H. injection H as _ H. apply (f_equal (@length _)) in H.
  rewrite length_app in H. simpl in H. lia.
Qed.

Lemma concat_no_raise (a b : DataFrame) (e : exn) : concat a b <> Raise e.
Proof. unfold concat. destruct (_ || _); discriminate. Qed.

Lemma to_csv_no_raise (df : DataFrame) (e : exn) : to_csv df <> Raise e.
Proof. unfold to_csv. destruct (_ || _ || _ || _); discriminate. Qed.

(** A failed [load_storage] leaves the file as it found it. *)
Lemma load_storage_raise_state (s : storage) (e : exn) :
  fst (load_storage s) = Raise e -> snd (load_storage s) = s.
Proof.
  destruct s as [c|].
  - intros _. run_load. reflexivity.
  - rewrite (load_storage_ledger None eq_refl). discriminate.
Qed.

(** [save_entry] raises what [load_storage] raises, and nothing else. *)
Lemma save_entry_raises (s : storage) (row : dict) (e : exn) :
  fst (save_entry row s) = Raise e <-> fst (load_storage s) = Raise e.
Proof.
  run_save. destruct (load_storage s) as [[df|e'|] s']; cbn [fst].
  - destruct (concat df (DataFrame_of_row row)) as [df'|e'|] eqn:Ec.
    + destruct (to_csv df') as [c|e'|] eqn:Et; cbn [fst].
      * split; discriminate.
      * exfalso. exact (to_csv_no_raise _ _ Et).
      * split; discriminate.
    + exfalso. exact (concat_no_raise _ _ _ Ec).
    + cbn [fst]. split; discriminate.
  - split; intro H; injection H as ->; reflexivity.
  - split; discriminate.
Qed.

Lemma save_entry_raise_state (s : storage) (row : dict) (e : exn) :
  fst (load_storage s) = Raise e ->
  save_entry row s = (Raise e, s)
  /\ save_entry_interrupted row s = (Raise e, s).
Proof.
  intro He. pose proof (load_storage_raise_state s e He) as Hst.
  run_save. destruct (load_storage s) as [[df|e'|] s']; cbn [fst snd] in *;
    try discriminate.
  injection He as ->. subst s'. auto.
Qed.

(** What [load_storage] raises, and on which files. *)
Lemma load_storage_raises (s : storage) (e : exn) :
  fst (load_storage s) = Raise e ->
  (e = EmptyDataError /\ s = Some Blank)
  \/ (e = ValueError
      /\ exists h ls, s = Some (Table h ls) /\ mem "Fake_date" h = false)
  \/ (e = ParserError
      /\ exists h ls, s = Some (Table h ls)
                      /\ existsb (too_long h) (data_lines ls) = true).
Proof.
  destruct s as [[|h ls]|].
  - run_load. cbn [fst read_csv]. intro H. injection H as <-. auto.
  - run_load. cbn [fst]. unfold read_csv.
    destruct h as [|c h]; [discriminate|]. cbn [forallb].
    rewrite andb_true_r. fold (data_lines ls).
    destruct (mem "Fake_date" (c :: h)) eqn:Hm; cbn [negb].
    + destruct (header_ok (c :: h)); cbn [negb]; [|discriminate].
      destruct (too_long (c :: h) (hd [] (data_lines ls))); [discriminate|].
      destruct (existsb (too_long (c :: h)) (data_lines ls)) eqn:Hl.
      * intro H. injection H as <-. right. right. eauto.
      * destruct (infer_dtypes _ _ _ _); discriminate.
    + intro H. injection H as <-. right. left. eauto.
  - rewrite (load_storage_ledger None eq_refl). discriminate.
Qed.

Lemma small_int64 (k acc : Z) :
  0 <= k <= 15 -> - k * 2 ^ 59 <= acc <= k * 2 ^ 59 -> int64 acc = true.
Proof.
  intros Hk Ha. unfold int64, int64_max.
  change (2 ^ 59) with 576460752303423488 in Ha.
  apply andb_true_iff. rewrite !Z.leb_le. lia.
Qed.

Lemma py_sum_from_small (row : dict) (cats : list string) :
  forallb (fun c => small_or_absent (dict_get row c)) cats = true ->
  forall acc k,
    0 <= k -> k + Z.of_nat (length cats) <= 15 ->
    - k * 2 ^ 59 <= acc <= k * 2 ^ 59 ->
    py_sum_from (VInt acc) (map (get_or_zero row) cats)
    = Ok (VInt (acc + fold_right Z.add 0
                        (map (fun c => int_of (dict_get row c)) cats))).
Proof.
  induction cats as [|c cats IH]; intros H acc k Hk Hlen Hacc.
  - simpl. rewrite Z.add_0_r. reflexivity.
  - cbn [forallb] in H. apply andb_true_iff in H. destruct H as [Hc Hr].
    cbn [length] in Hlen. rewrite Nat2Z.inj_succ in Hlen.
    cbn [map py_sum_from fold_right]. unfold get_or_zero at 1.
    assert (Hn : exists n, int_of (dict_get row c) = n
                 /\ match dict_get row c with
                    | Some v => v | None => VInt 0 end = VInt n
                 /\ - 2 ^ 59 <= n <= 2 ^ 59).
    { destruct (dict_get row c) as [[| n | |]|]; try discriminate.
      - exists n. cbn [small_or_absent small] in Hc.
        apply andb_true_iff in Hc. rewrite !Z.leb_le in Hc. auto.
      - exists 0. cbn [int_of]. repeat split; try reflexivity;
          change (2 ^ 59) with 576460752303423488; lia. }
    destruct Hn as [n [Hi [-> Hb]]]. rewrite Hi. cbn [py_add].
    assert (Hnext : - (k + 1) * 2 ^ 59 <= acc + n <= (k + 1) * 2 ^ 59) by lia.
    rewrite (small_int64 (k + 1) (acc + n)) by lia.
    rewrite (IH Hr (acc + n) (k + 1)) by lia.
    do 2 f_equal. lia.
Qed.

Lemma compute_total_sum (row : dict) :
  forallb (fun c => small_or_absent (dict_get row c)) CATEGORIES = true ->
  compute_total row = Ok (VInt (category_sum row)).
Proof.
  intro H. unfold compute_total, py_sum, category_sum.
  rewrite (py_sum_from_small row CATEGORIES H 0 0);
    [reflexivity | lia | vm_compute; discriminate | lia].
Qed.

End StorageFacts.
Section EntryFacts.

Lemma valid_entry_typed (e : dict) :
  valid_entry e = true -> entry_typed e = true.
Proof.
  unfold valid_entry. rewrite !andb_true_iff. tauto.
Qed.

Lemma is_amount_present (o : option value) :
  is_amount o = true -> exists n, o = Some (VInt n) /\ 0 <= n.
Proof.
  destruct o as [[| n | |]|]; simpl; try discriminate.
  intro H. exists n. split; [reflexivity | apply Z.leb_le, H].
Qed.

Lemma value_eqb_int (o : option value) (v : value) :
  value_eqb (or_nan o) v = true -> exists n, o = Some (VInt n) /\ v = VInt n.
Proof.
  destruct o as [[| n | |]|]; destruct v; simpl; try discriminate.
  intro H. apply Z.eqb_eq in H. subst. eauto.
Qed.

(** When the categories hold amounts, what [compute_total] returns is
    their sum. *)
Lemma py_sum_from_amounts (row : dict) (cats : list string) :
  forallb (fun c => is_amount (dict_get row c)) cats = true ->
  forall acc t,
    py_sum_from (VInt acc) (map (get_or_zero row) cats) = Ok t ->
    t = VInt (acc + fold_right Z.add 0
                      (map (fun c => int_of (dict_get row c)) cats)).
Proof.
  induction cats as [|c cats IH]; intros H acc t.
  - simpl. rewrite Z.add_0_r. intro E. injection E as <-. reflexivity.
  - cbn [forallb] in H. apply andb_true_iff in H. destruct H as [Hc Hr].
    apply is_amount_present in Hc. destruct Hc as [n [Hn _]].
    cbn [map py_sum_from fold_right]. unfold get_or_zero at 1.
    rewrite Hn. cbn [py_add int_of].
    destruct (int64 (acc + n)); [|discriminate].
    intro E. rewrite (IH Hr _ _ E). f_equal. lia.
Qed.

Lemma compute_total_amounts (row : dict) (t : value) :
  forallb (fun c => is_amount (dict_get row c)) CATEGORIES = true ->
  compute_total row = Ok t -> t = VInt (category_sum row).
Proof.
  intros H E. apply (py_sum_from_amounts row CATEGORIES H 0 t E).
Qed.

Lemma infer_text_date (col : list field) (d : string) :
  forallb (field_ok KDate) col = true ->
  plain_text d = true -> no_date d = true ->
  forall whole, infer true whole (col ++ [FText d]) = Some DObject.
Proof.
  intros Hc Hp Hn whole. unfold infer.
  rewrite forallb_app,
    (forallb_impl _ known col (fun f _ => field_ok_known KDate f) Hc).
  cbn [forallb known]. rewrite Hp. cbn [andb negb].
  rewrite forallb_app. cbn [forallb date_or_empty]. rewrite andb_false_r.
  rewrite existsb_app. cbn [existsb surely_no_date]. rewrite Hn.
  cbn [orb]. rewrite orb_true_r. reflexivity.
Qed.

Lemma infer_text_amount (col : list field) (a : string) :
  forallb (field_ok KNum) col = true ->
  plain_text a = true ->
  infer false true (col ++ [FText a]) = Some DObject.
Proof.
  intros Hc Hp. unfold infer.
  rewrite forallb_app,
    (forallb_impl _ known col (fun f _ => field_ok_known KNum f) Hc).
  cbn [forallb known]. rewrite Hp. cbn [andb negb].
  rewrite forallb_app. cbn [forallb int_or_empty]. rewrite !andb_false_r.
  reflexivity.
Qed.

(** A well-typed table to which a line with a text for a date and a text
    for an income is added: both columns are read as the strings they
    hold. *)
Lemma infer_dtypes_text_fields (cols : list string) (ls : list (list field))
  (d a : string) (rest : list field) :
  forallb (line_ok ("Fake_date" :: "Income" :: cols)) ls = true ->
  plain_text d = true -> no_date d = true -> plain_text a = true ->
  line_ok cols rest = true ->
  exists ds,
    infer_dtypes ["Fake_date"] true ("Fake_date" :: "Income" :: cols)
      (ls ++ [FText d :: FText a :: rest])
    = Some ds
    /\ forall l, In l (ls ++ [FText d :: FText a :: rest]) ->
                 convert_line ds l = as_text l.
Proof.
  intros Hls Hd Hnd Ha Hrest.
  destruct (line_ok_heads _ _ _ Hls) as [H1 Ht1].
  destruct (line_ok_heads _ _ _ Ht1) as [H2 Ht2].
  change (kind_of "Fake_date") with KDate in H1.
  change (kind_of "Income") with KNum in H2.
  assert (Hall : forallb (line_ok cols)
                   (map (@tl field) (map (@tl field) ls) ++ [rest]) = true).
  { rewrite forallb_app, Ht2. cbn [forallb]. rewrite Hrest. reflexivity. }
  destruct (read_typed_lines true cols _ Hall) as [ds [Hds Hline]].
  exists (DObject :: DObject :: ds). split.
  - cbn [infer_dtypes]. rewrite !map_app. cbn [map first_field hd tl].
    change (mem "Fake_date" ["Fake_date"]) with true.
    change (mem "Income" ["Fake_date"]) with false.
    rewrite (infer_text_date _ d H1 Hd Hnd true),
      (infer_text_amount _ a H2 Ha).
    rewrite Hds. reflexivity.
  - intros l Hin. apply in_app_or in Hin. destruct Hin as [Hin|[<-|[]]].
    + assert (Hl : line_ok ("Fake_date" :: "Income" :: cols) l = true).
      { rewrite forallb_forall in Hls. apply Hls, Hin. }
      destruct l as [|f1 [|f2 l']]; try discriminate.
      { cbn [line_ok] in Hl. rewrite andb_false_r in Hl. discriminate. }
      cbn [line_ok] in Hl. rewrite !andb_true_iff in Hl.
      destruct Hl as [Hf1 [Hf2 _]].
      change (kind_of "Fake_date") with KDate in Hf1.
      change (kind_of "Income") with KNum in Hf2.
      cbn [convert_line first_field hd tl as_text]. f_equal; [|f_equal].
      * destruct f1; try discriminate; reflexivity.
      * destruct f2; try discriminate; reflexivity.
      * apply Hline. apply in_or_app. left.
        apply in_map_iff. exists (f2 :: l'). split; [reflexivity|].
        apply in_map_iff. exists (f1 :: f2 :: l'). auto.
    + cbn [convert_line first_field hd tl as_text convert]. do 2 f_equal.
      apply Hline. apply in_or_app. right. left. reflexivity.
Qed.

Lemma read_csv_text_fields (cols : list string) (ls : list (list field))
  (d a : string) (rest : list field) :
  header_ok ("Fake_date" :: "Income" :: cols) = true ->
  forallb (line_ok ("Fake_date" :: "Income" :: cols)) ls = true ->
  plain_text d = true -> no_date d = true -> plain_text a = true ->
  line_ok cols rest = true ->
  one_piece ("Fake_date" :: "Income" :: cols)
    (ls ++ [FText d :: FText a :: rest]) = true ->
  read_csv (Table ("Fake_date" :: "Income" :: cols)
              (ls ++ [FText d :: FText a :: rest])) ["Fake_date"]
  = Ok (mkDataFrame ("Fake_date" :: "Income" :: cols)
          (map as_text (ls ++ [FText d :: FText a :: rest]))).
Proof.
  intros Hh Hls Hd Hnd Ha Hrest Hone.
  destruct (infer_dtypes_text_fields cols ls d a rest Hls Hd Hnd Ha Hrest)
    as [ds [Hds Hline]].
  assert (Hfull : Forall (fun l => length l
                   = length ("Fake_date" :: "Income" :: cols))
                   (ls ++ [FText d :: FText a :: rest])).
  { apply Forall_app. split; [apply typed_lines_full, Hls|].
    constructor; [|constructor]. cbn [length].
    rewrite (line_ok_length _ _ Hrest). reflexivity. }
  destruct (full_lines _ _ (not_eq_sym (@nil_cons _ _ _)) Hfull)
    as [Hdl [Hfirst Hlong]].
  unfold read_csv. cbn [forallb].
  change (mem "Fake_date" ("Fake_date" :: "Income" :: cols)) with true.
  rewrite Hh. cbn [andb negb].
  fold (data_lines (ls ++ [FText d :: FText a :: rest])).
  rewrite Hdl, Hfirst, Hlong, Hone, Hds.
  f_equal. f_equal. apply map_ext_in. exact Hline.
Qed.

End EntryFacts.
(** C10 as stated fails for a row whose income is a text: [save_entry]
    returns normally, and [load_storage] then yields the entries stored
    before with their income changed, from the number 1000 to the string
    that spells it. *)
Lemma save_entry_turns_amounts_into_text :
  ledger_state sample_storage = true
  /\ exists old s' df r r',
       fst (load_storage sample_storage)
       = Ok (mkDataFrame storage_columns old)
       /\ save_entry text_income_entry sample_storage = (Ok tt, s')
       /\ fst (load_storage s') = Ok df
       /\ nth_error old 0 = Some r
       /\ row_get storage_columns r "Income" = Some (VInt 1000)
       /\ nth_error (rows df) 0 = Some r'
       /\ row_get (columns df) r' "Income" = Some (VStr (FInt 1000))
       /\ firstn (length old) (rows df) <> old.
Proof.
  split; [reflexivity|].
  do 5 eexists.
  split; [vm_compute; reflexivity|].
  split; [vm_compute; reflexivity|].
  split; [vm_compute; reflexivity|].
  split; [reflexivity|]. split; [reflexivity|].
  split; [reflexivity|]. split; [reflexivity|].
  vm_compute. discriminate.
Qed.

(** C10, as the code has it.  From every well-formed ledger and for every
    row of the canonical schema (a value of the kind of its column under
    every column), [save_entry] returns normally, and [load_storage] then
    yields the entries that were stored before, unchanged and in their
    order, followed by the new row. *)
Theorem save_entry_keeps_entries (s : storage) (row : dict) :
  ledger_state s = true ->
  entry_typed row = true ->
  exists old s',
    fst (load_storage s) = Ok (mkDataFrame storage_columns old)
    /\ save_entry row s = (Ok tt, s')
    /\ fst (load_storage s')
       = Ok (mkDataFrame storage_columns (old ++ [entry_row row])).
Proof.
  intros Hs Ht. exists (stored_rows s), (appended s row).
  rewrite (load_storage_ledger s Hs), (save_entry_ledger s row Hs Ht),
    (load_after_save s row Hs Ht).
  auto.
Qed.

Lemma save_entry_keeps_entries_witness :
  exists old s',
    fst (load_storage sample_storage) = Ok (mkDataFrame storage_columns old)
    /\ save_entry (sample_entry 19002 300 350 650) sample_storage = (Ok tt, s')
    /\ fst (load_storage s')
       = Ok (mkDataFrame storage_columns
               (old ++ [entry_row (sample_entry 19002 300 350 650)])).
Proof.
  apply (save_entry_keeps_entries sample_storage
           (sample_entry 19002 300 350 650)); reflexivity.
Defined.

(** C7.  After [save_entry(e)] on a well-formed ledger, for a valid entry
    [e], [load_storage] returns a ledger holding a row that has under every
    column the value [e] has there; its total is the sum of the category
    amounts of [e] and its disposable income is the income less that total. *)
Theorem save_entry_round_trip (s : storage) (e : dict) :
  ledger_state s = true ->
  valid_entry e = true ->
  exists s' df,
    save_entry e s = (Ok tt, s')
    /\ fst (load_storage s') = Ok df
    /\ In (entry_row e) (rows df)
    /\ (forall c, In c (columns df) ->
          exists v, dict_get e c = Some v
                    /\ row_get (columns df) (entry_row e) c = Some v)
    /\ (forall c v, dict_get e c = Some v -> In c (columns df))
    /\ exists income total,
         compute_total e = Ok (VInt total)
         /\ total = category_sum e
         /\ row_get (columns df) (entry_row e) "Income" = Some (VInt income)
         /\ row_get (columns df) (entry_row e) "Total_Expenses"
            = Some (VInt total)
         /\ row_get (columns df) (entry_row e) "Disposable_Income"
            = Some (VInt (income - total)).
Proof.
  intros Hs Hv. pose proof (valid_entry_typed e Hv) as Ht.
  exists (appended s e),
    (mkDataFrame storage_columns (stored_rows s ++ [entry_row e])).
  rewrite (save_entry_ledger s e Hs Ht), (load_after_save s e Hs Ht).
  cbn [fst columns rows].
  assert (Hget : forall c, In c storage_columns ->
            row_get storage_columns (entry_row e) c
            = Some (or_nan (dict_get e c))).
  { intros c Hc. unfold entry_row.
    apply (row_get_map (fun c => or_nan (dict_get e c))), Hc. }
  split; [reflexivity|]. split; [reflexivity|].
  split; [apply in_or_app; right; left; reflexivity|].
  split.
  { intros c Hc. destruct (entry_typed_complete e c Ht Hc) as [v Hcv].
    exists v. split; [exact Hcv|]. rewrite (Hget c Hc), Hcv. reflexivity. }
  split.
  { intros c v Hcv. apply (dict_get_typed e c v Ht Hcv). }
  unfold valid_entry in Hv. rewrite !andb_true_iff in Hv.
  destruct Hv as [[[[[[[[[_ _] Hi] _] _] _] _] Hcat] Htot] Hdis].
  apply is_amount_present in Hi. destruct Hi as [income [Hinc _]].
  destruct (compute_total e) as [t| |] eqn:Hsum; try discriminate.
  pose proof (compute_total_amounts e t Hcat Hsum) as ->.
  apply value_eqb_int in Htot.
  destruct Htot as [total [Htot Heq]]. injection Heq as Heq.
  apply value_eqb_int in Hdis. destruct Hdis as [dis [Hdis Hd]].
  rewrite Hinc, Htot in Hd. cbn [int_of] in Hd. injection Hd as <-.
  exists income, total.
  rewrite !Hget by (vm_compute; tauto).
  rewrite Hinc, Htot, Hdis. subst total. cbn [or_nan]. auto.
Qed.

Lemma save_entry_round_trip_witness :
  exists s' df,
    save_entry (sample_entry 19002 300 350 650) sample_storage = (Ok tt, s')
    /\ fst (load_storage s') = Ok df
    /\ In (entry_row (sample_entry 19002 300 350 650)) (rows df).
Proof.
  destruct (save_entry_round_trip sample_storage
              (sample_entry 19002 300 350 650) eq_refl eq_refl)
    as [s' [df [H1 [H2 [H3 _]]]]].
  exists s', df. auto.
Defined.

(** C1 as stated fails: [save_entry] takes an entry with a negative rent
    and a total that is not the sum of its categories, returns normally, and
    the stored ledger has changed: it now ends with that entry. *)
Lemma save_entry_accepts_invalid_entry :
  dict_get invalid_entry "Rent" = Some (VInt (-300))
  /\ compute_total invalid_entry = Ok (VInt (-250))
  /\ dict_get invalid_entry "Total_Expenses" = Some (VInt 350)
  /\ exists s',
       save_entry invalid_entry sample_storage = (Ok tt, s')
       /\ s' <> sample_storage
       /\ fst (load_storage s')
          = Ok (mkDataFrame storage_columns
                  (stored_rows sample_storage ++ [entry_row invalid_entry])).
Proof.
  split; [reflexivity|]. split; [reflexivity|]. split; [reflexivity|].
  exists (appended sample_storage invalid_entry).
  split; [apply save_entry_ledger; reflexivity|].
  split; [apply appended_differs|].
  rewrite load_after_save by reflexivity. reflexivity.
Qed.

(** C1, as the code has it.  [save_entry] checks nothing about the row: it
    raises exactly when [load_storage] raises, whatever the row, and then
    nothing is written.  On a well-formed ledger every row of the canonical
    schema, whatever the sign of its amounts and whatever its total, is
    appended as given, the total of the caller included.  [compute_total]
    is a helper of its own: on a row whose categories are absent or
    integers of at most 2^59 in size it returns their sum, an absent one
    counting 0. *)
Theorem save_entry_no_validation (s : storage) (row : dict) :
  (forall e, fst (save_entry row s) = Raise e
             <-> fst (load_storage s) = Raise e)
  /\ (forall e, fst (load_storage s) = Raise e ->
                save_entry row s = (Raise e, s))
  /\ (ledger_state s = true ->
      entry_typed row = true ->
      exists s',
        save_entry row s = (Ok tt, s')
        /\ s' <> s
        /\ fst (load_storage s')
           = Ok (mkDataFrame storage_columns
                   (stored_rows s ++ [entry_row row]))
        /\ row_get storage_columns (entry_row row) "Total_Expenses"
           = Some (or_nan (dict_get row "Total_Expenses")))
  /\ (forallb (fun c => small_or_absent (dict_get row c)) CATEGORIES = true ->
      compute_total row = Ok (VInt (category_sum row))).
Proof.
  split; [intro e; apply save_entry_raises|].
  split; [intros e He; apply (save_entry_raise_state s row e He)|].
  split; [|apply compute_total_sum].
  intros Hs Ht. exists (appended s row).
  split; [apply save_entry_ledger; assumption|].
  split; [apply appended_differs|].
  split; [rewrite load_after_save by assumption; reflexivity|].
  unfold entry_row.
  apply (row_get_map (fun c => or_nan (dict_get row c))).
  vm_compute. tauto.
Qed.

Lemma save_entry_no_validation_witness :
  (exists s',
     save_entry invalid_entry sample_storage = (Ok tt, s')
     /\ s' <> sample_storage
     /\ fst (load_storage s')
        = Ok (mkDataFrame storage_columns
                (stored_rows sample_storage ++ [entry_row invalid_entry]))
     /\ row_get storage_columns (entry_row invalid_entry) "Total_Expenses"
        = Some (or_nan (dict_get invalid_entry "Total_Expenses")))
  /\ compute_total invalid_entry = Ok (VInt (category_sum invalid_entry)).
Proof.
  split.
  - apply (proj1 (proj2 (proj2
      (save_entry_no_validation sample_storage invalid_entry))));
      reflexivity.
  - apply (proj2 (proj2 (proj2
      (save_entry_no_validation sample_storage invalid_entry))));
      reflexivity.
Defined.




(** C5 as stated fails: stopped right after the file has been opened for
    writing, [save_entry] leaves a file with nothing in it, which is neither
    the prior content nor the new one, and which [load_storage] cannot
    read. *)
Lemma save_entry_interrupted_unreadable :
  ledger_state sample_storage = true
  /\ snd (save_entry_interrupted (sample_entry 19002 300 350 650)
            sample_storage)
     = Some Blank
  /\ Some Blank <> sample_storage
  /\ Some Blank
     <> snd (save_entry (sample_entry 19002 300 350 650) sample_storage)
  /\ fst (load_storage (Some Blank)) = Raise EmptyDataError.
Proof.
  split; [reflexivity|]. split; [reflexivity|].
  split; [discriminate|]. split; [discriminate | reflexivity].
Qed.

(** C5, as the code has it.  [save_entry] rewrites the file in place: it
    opens the storage file for writing, which empties it, and then sends
    the table out.  When [load_storage] raises, nothing is written.
    Whenever [save_entry] returns, there is a point of its run, between the
    two steps, at which the file has nothing in it: it is then no ledger,
    and [load_storage] raises on it.  On a well-formed ledger and a row of
    the canonical schema the call that runs to its end leaves a well-formed
    ledger, read as the old entries followed by the new one. *)
Theorem save_entry_rewrites_in_place (s : storage) (row : dict) :
  save_entry row s = (c <- save_entry_interrupted row ;; write_out c) s
  /\ (forall e, fst (load_storage s) = Raise e ->
       save_entry row s = (Raise e, s)
       /\ save_entry_interrupted row s = (Raise e, s))
  /\ (fst (save_entry row s) = Ok tt ->
      exists c,
        save_entry_interrupted row s = (Ok c, Some Blank)
        /\ save_entry row s = (Ok tt, Some c)
        /\ ledger_state (Some Blank) = false
        /\ fst (load_storage (Some Blank)) = Raise EmptyDataError)
  /\ (ledger_state s = true ->
      entry_typed row = true ->
      Some Blank <> s
      /\ exists s',
           save_entry row s = (Ok tt, s')
           /\ ledger_state s' = true
           /\ fst (load_storage s')
              = Ok (mkDataFrame storage_columns
                      (stored_rows s ++ [entry_row row]))).
Proof.
  split.
  { run_save. destruct (load_storage s) as [[df|e| ] s']; try reflexivity.
    destruct (concat df (DataFrame_of_row row)) as [df'|e| ];
      try reflexivity.
    destruct (to_csv df') as [c|e| ]; reflexivity. }
  split; [intros e He; apply (save_entry_raise_state s row e He)|].
  split.
  { run_save. destruct (load_storage s) as [[df|e| ] s']; cbn [fst];
      try discriminate.
    destruct (concat df (DataFrame_of_row row)) as [df'|e| ]; cbn [fst];
      try discriminate.
    destruct (to_csv df') as [c|e| ]; cbn [fst]; try discriminate.
    intros _. exists c. repeat split. }
  intros Hs Ht. split.
  { intro E. rewrite <- E in Hs. discriminate. }
  exists (appended s row).
  split; [apply save_entry_ledger; assumption|].
  split; [apply appended_ledger_state; assumption|].
  rewrite load_after_save by assumption. reflexivity.
Qed.

Lemma save_entry_rewrites_in_place_witness :
  exists c,
    save_entry_interrupted (sample_entry 19002 300 350 650) sample_storage
    = (Ok c, Some Blank)
    /\ save_entry (sample_entry 19002 300 350 650) sample_storage
       = (Ok tt, Some c)
    /\ ledger_state (Some Blank) = false
    /\ fst (load_storage (Some Blank)) = Raise EmptyDataError.
Proof.
  apply (proj1 (proj2 (proj2 (save_entry_rewrites_in_place sample_storage
           (sample_entry 19002 300 350 650))))).
  reflexivity.
Defined.

(** ** Start of the script *)

(** When the download answers, whatever it answers, the script goes on to
    load the storage, and what it loads does not depend on the model. *)
Lemma main_runs_without_model (w : Startup.world) (s : storage)
  (file : option Startup.artifact) (reps : list Startup.report) :
  Startup.fetch_model w = Some (file, reps) ->
  Startup.main w s
  = (Startup.Ran (Startup.load_model file reps) (fst (load_storage s)),
     snd (load_storage s)).
Proof.
  intro H. unfold Startup.main. rewrite H.
  destruct (load_storage s). reflexivity.
Qed.

Lemma load_model_failure (reps : list Startup.report) :
  Startup.model_loaded (Startup.load_model None reps) = false
  /\ Startup.model_loaded (Startup.load_model (Some Startup.Garbage) reps)
     = false
  /\ Startup.reports (Startup.load_model None reps)
     = reps ++ [Startup.LoadFailed].
Proof. repeat split. Qed.

(** The script comes to the storage unless the download raises. *)
Lemma main_aborted_iff (w : Startup.world) (s : storage) :
  fst (Startup.main w s) = Startup.Aborted <->
  Startup.model_file w = None /\ Startup.remote w = Startup.RequestException.
Proof.
  unfold Startup.main, Startup.fetch_model.
  destruct w as [[a|] [code body|]]; cbn [Startup.model_file Startup.remote];
    try destruct (code =? 200); destruct (load_storage s); simpl;
    split; try discriminate; try tauto; intros [H1 H2]; discriminate.
Qed.

(** C9 fails in one case.  With no model file on disk and a download that
    raises instead of answering, the script ends at the download: the
    storage is never loaded, nor even created, whatever it holds. *)
Theorem main_aborts_when_download_raises (s : storage) :
  Startup.main (Startup.mkWorld None Startup.RequestException) s
  = (Startup.Aborted, s).
Proof. reflexivity. Qed.

(** * Further properties *)

(** ** Ledger store *)

Section StoreMore.

Lemma convert_line_length (ds : list dtype) (l : list field) :
  length (convert_line ds l) = length ds.
Proof.
  revert l. induction ds as [|d ds IH]; intro l; simpl; [reflexivity|].
  rewrite IH. reflexivity.
Qed.

Lemma infer_dtypes_length (p : list string) (whole : bool)
  (h : list string) :
  forall (ls : list (list field)) (ds : list dtype),
    infer_dtypes p whole h ls = Some ds -> length ds = length h.
Proof.
  induction h as [|c h IH]; intros ls ds; cbn [infer_dtypes].
  - intro H. injection H as <-. reflexivity.
  - destruct (infer (mem c p) whole (map first_field ls)) as [d|];
      [|discriminate].
    destruct (infer_dtypes p whole h (map (@tl field) ls)) as [ds'|] eqn:E;
      [|discriminate].
    intro H. injection H as <-. simpl. f_equal. apply (IH _ _ E).
Qed.

(** What [load_storage] does on a file with a table in it. *)
Lemma load_storage_table (h : list string) (ls : list (list field)) :
  load_storage (Some (Table h ls))
  = (read_csv (Table h ls) ["Fake_date"], Some (Table h ls)).
Proof. reflexivity. Qed.

Lemma read_csv_inv (c : content) (df : DataFrame) :
  read_csv c ["Fake_date"] = Ok df ->
  exists h ls ds,
    c = Table h ls
    /\ mem "Fake_date" h = true
    /\ header_ok h = true
    /\ infer_dtypes ["Fake_date"] (one_piece h (data_lines ls)) h
         (data_lines ls) = Some ds
    /\ df = mkDataFrame h (map (convert_line ds) (data_lines ls)).
Proof.
  destruct c as [|h ls]; [discriminate|]. unfold read_csv.
  destruct h as [|c h]; [discriminate|]. cbn [forallb].
  rewrite andb_true_r. fold (data_lines ls).
  destruct (mem "Fake_date" (c :: h)) eqn:Hm; [|discriminate]. cbn [negb].
  destruct (header_ok (c :: h)) eqn:Hh; [|discriminate]. cbn [negb].
  destruct (too_long (c :: h) (hd [] (data_lines ls))); [discriminate|].
  destruct (existsb (too_long (c :: h)) (data_lines ls)); [discriminate|].
  destruct (infer_dtypes _ _ _ _) as [ds|] eqn:Hds; [|discriminate].
  intro H. injection H as <-. exists (c :: h), ls, ds. auto.
Qed.

End StoreMore.

(** X1.  [load_storage] writes only when there is no file, and then the
    header of the canonical columns with no line under it, which it reads
    as the empty ledger; a file that exists is left as it is.  Loading a
    second time returns what the first load returned and changes nothing. *)
Theorem load_storage_stable (s : storage) :
  snd (load_storage s)
  = match s with
    | Some c => Some c
    | None => Some (Table storage_columns [])
    end
  /\ load_storage (snd (load_storage s))
     = (fst (load_storage s), snd (load_storage s))
  /\ load_storage None
     = (Ok (DataFrame_of_columns storage_columns),
        Some (Table storage_columns []))
  /\ ensure_storage (snd (ensure_storage s)) = ensure_storage s.
Proof.
  destruct s as [c|].
  - repeat split; reflexivity.
  - rewrite (load_storage_ledger None eq_refl).
    cbn [fst snd stored_lines stored_rows].
    split; [reflexivity|]. split; [|split; reflexivity].
    rewrite (load_storage_ledger (Some (Table storage_columns [])) eq_refl).
    reflexivity.
Qed.



(** X4.  Saving rows of the canonical schema one after the other on a
    well-formed ledger always succeeds, leaves a well-formed ledger, and
    the ledger then read is the old entries followed by the rows in the
    order they were saved. *)
Theorem save_entries_in_order (rows : list dict) (s : storage) :
  ledger_state s = true ->
  forallb entry_typed rows = true ->
  exists s',
    save_entries rows s = (Ok tt, s')
    /\ ledger_state s' = true
    /\ fst (load_storage s')
       = Ok (mkDataFrame storage_columns
               (stored_rows s ++ map entry_row rows)).
Proof.
  revert s. induction rows as [|row rows IH]; intros s Hs Hrows.
  - exists s. split; [reflexivity|]. split; [exact Hs|].
    rewrite (load_storage_ledger s Hs), app_nil_r. reflexivity.
  - cbn [forallb] in Hrows. apply andb_true_iff in Hrows.
    destruct Hrows as [Ht Hr].
    destruct (IH (appended s row) (appended_ledger_state s row Hs Ht) Hr)
      as [s' [Hsave [Hs' Hload]]].
    exists s'. split; [|split; [exact Hs'|]].
    + cbn [save_entries]. unfold bind at 1.
      rewrite (save_entry_ledger s row Hs Ht). exact Hsave.
    + rewrite Hload, (appended_rows s row Ht), <- app_assoc. reflexivity.
Qed.

Lemma save_entries_in_order_witness :
  exists s',
    save_entries [sample_entry 19002 300 350 650; invalid_entry] None
    = (Ok tt, s')
    /\ ledger_state s' = true
    /\ fst (load_storage s')
       = Ok (mkDataFrame storage_columns
               (stored_rows None
                ++ map entry_row
                     [sample_entry 19002 300 350 650; invalid_entry])).
Proof.
  apply (save_entries_in_order
           [sample_entry 19002 300 350 650; invalid_entry] None);
    reflexivity.
Defined.

(** ** Totals *)

Section TotalMore.

Lemma py_sum_from_cases (row : dict) (cats : list string) :
  forallb summable (map (get_or_zero row) cats) = true ->
  forall acc k,
    0 <= k -> k + Z.of_nat (length cats) <= 15 -> room k acc ->
    py_sum_from acc (map (get_or_zero row) cats)
    = if existsb not_a_number (map (get_or_zero row) cats)
      then Raise TypeError
      else if is_nan acc || existsb is_nan (map (get_or_zero row) cats)
      then Ok VNaN
      else Ok (VInt (int_of (Some acc)
                     + fold_right Z.add 0
                         (map (fun c => int_of (dict_get row c)) cats))).
Proof.
  induction cats as [|c cats IH]; intros Hs acc k Hk Hlen Hacc.
  - destruct acc; try contradiction; simpl; rewrite ?Z.add_0_r; reflexivity.
  - cbn [map forallb] in Hs. apply andb_true_iff in Hs.
    destruct Hs as [Hc Hs]. cbn [length] in Hlen.
    rewrite Nat2Z.inj_succ in Hlen.
    cbn [map py_sum_from existsb fold_right].
    assert (Hv : get_or_zero row c = VInt (int_of (dict_get row c))
                 /\ - 2 ^ 59 <= int_of (dict_get row c) <= 2 ^ 59
                 \/ get_or_zero row c = VNaN /\ int_of (dict_get row c) = 0
                 \/ not_a_number (get_or_zero row c) = true).
    { unfold get_or_zero in *.
      destruct (dict_get row c) as [[|n| |]|]; cbn [int_of not_a_number];
        auto.
      - left. split; [reflexivity|]. cbn [summable small] in Hc.
        apply andb_true_iff in Hc. rewrite !Z.leb_le in Hc. exact Hc.
      - left. split; [reflexivity|].
        change (2 ^ 59) with 576460752303423488. lia. }
    destruct Hv as [[Hv Hb]|[[Hv H0]|Hv]].
    + rewrite Hv. cbn [not_a_number is_nan orb].
      destruct acc as [|a| |]; try contradiction; cbn [py_add room] in *.
      * rewrite (IH Hs VNaN k) by (cbn [room]; auto; lia). reflexivity.
      * assert (Hnext : room (k + 1) (VInt (a + int_of (dict_get row c))))
          by (cbn [room]; lia).
        rewrite (small_int64 (k + 1)) by (cbn [room] in Hnext; lia).
        rewrite (IH Hs _ (k + 1)) by (auto; lia).
        cbn [is_nan orb int_of].
        destruct (existsb not_a_number _); [reflexivity|].
        destruct (existsb is_nan _); [reflexivity|].
        do 2 f_equal. lia.
    + rewrite Hv. cbn [not_a_number is_nan orb].
      destruct acc as [|a| |]; try contradiction; cbn [py_add];
        rewrite (IH Hs VNaN k) by (cbn [room]; auto; lia);
        cbn [is_nan orb]; rewrite ?orb_true_r; reflexivity.
    + rewrite Hv. cbn [orb].
      destruct acc as [|a| |]; try contradiction;
        destruct (get_or_zero row c); try discriminate; reflexivity.
Qed.

Lemma fold_add_bounds (f : string -> Z) (cats : list string) :
  (forall c, In c cats -> 0 <= f c) ->
  0 <= fold_right Z.add 0 (map f cats)
  /\ forall c, In c cats -> f c <= fold_right Z.add 0 (map f cats).
Proof.
  induction cats as [|c cats IH]; intro H; simpl.
  - split; [lia | tauto].
  - destruct IH as [H0 Hc]; [intros; apply H; right; assumption|].
    pose proof (H c (or_introl eq_refl)) as Hfc.
    split; [lia|]. intros c' [<-|Hin]; [lia|].
    specialize (Hc c' Hin). lia.
Qed.

End TotalMore.

(** X5.  On a row whose category amounts are at most 2^59 in size,
    [compute_total] raises [TypeError] exactly when one of the eleven
    categories holds a string or a date; otherwise it is NaN as soon as
    one category holds NaN, and else the sum of the category amounts, an
    absent category counting 0.  No other key of the row matters. *)
Theorem compute_total_cases (row : dict) :
  forallb summable (map (get_or_zero row) CATEGORIES) = true ->
  compute_total row
  = if existsb not_a_number (map (get_or_zero row) CATEGORIES)
    then Raise TypeError
    else if existsb is_nan (map (get_or_zero row) CATEGORIES) then Ok VNaN
    else Ok (VInt (category_sum row)).
Proof.
  intro H. unfold compute_total, py_sum.
  rewrite (py_sum_from_cases row CATEGORIES H (VInt 0) 0);
    [reflexivity | lia | vm_compute; discriminate | cbn [room]; lia].
Qed.

Lemma compute_total_cases_witness :
  compute_total [("Rent", VStr (FText "a lot")); ("Groceries", VInt 50)]
  = Raise TypeError
  /\ compute_total [("Rent", VNaN); ("Groceries", VInt 50)] = Ok VNaN
  /\ compute_total invalid_entry = Ok (VInt (-250)).
Proof.
  split; [|split].
  - apply (compute_total_cases
             [("Rent", VStr (FText "a lot")); ("Groceries", VInt 50)]).
    reflexivity.
  - apply (compute_total_cases [("Rent", VNaN); ("Groceries", VInt 50)]).
    reflexivity.
  - apply (compute_total_cases invalid_entry). reflexivity.
Defined.

(** X6.  When every category of a row is absent or an integer from 0 to
    2^59, [compute_total] returns an integer that is not negative and not
    below any single category amount. *)
Theorem compute_total_bounds (row : dict) :
  forallb (fun c => small_amount_or_absent (dict_get row c)) CATEGORIES
  = true ->
  exists total,
    compute_total row = Ok (VInt total)
    /\ 0 <= total
    /\ forall c n, In c CATEGORIES -> dict_get row c = Some (VInt n) ->
                   n <= total.
Proof.
  intro H. exists (category_sum row). split.
  - apply compute_total_sum. revert H. apply forallb_impl.
    intros c _. destruct (dict_get row c) as [[|n| |]|];
      cbn [small_amount_or_absent small_or_absent]; try congruence.
    unfold small. rewrite !andb_true_iff, !Z.leb_le.
    change (2 ^ 59) with 576460752303423488. lia.
  - rewrite forallb_forall in H.
    destruct (fold_add_bounds (fun c => int_of (dict_get row c)) CATEGORIES)
      as [H0 Hc].
    + intros c Hin. specialize (H c Hin).
      destruct (dict_get row c) as [[|n| |]|];
        cbn [small_amount_or_absent int_of] in *; try discriminate;
        try lia.
    + split; [exact H0|]. intros c n Hin Hn. specialize (Hc c Hin).
      rewrite Hn in Hc. exact Hc.
Qed.

Lemma compute_total_bounds_witness :
  exists total,
    compute_total (sample_entry 19002 300 350 650) = Ok (VInt total)
    /\ 0 <= total
    /\ forall c n, In c CATEGORIES ->
         dict_get (sample_entry 19002 300 350 650) c = Some (VInt n) ->
         n <= total.
Proof.
  apply (compute_total_bounds (sample_entry 19002 300 350 650)).
  reflexivity.
Defined.

(** ** Week window *)

Section WindowMore.

Lemma compare_with_ok_inv (op : Z -> Z -> bool) (col : list value)
  (t : Timestamp) (m : list bool) :
  compare_with op col t = Ok m -> forallb date_or_nat col = true.
Proof.
  revert m. induction col as [|v col IH]; intro m; [reflexivity|].
  cbn [compare_with forallb].
  destruct v as [| |x|]; try discriminate; cbn [date_or_nat].
  - destruct (compare_with op col t) as [m'| |]; try discriminate.
    intros _. apply (IH m' eq_refl).
  - destruct (in_bounds x); [|discriminate].
    destruct (compare_with op col t) as [m'| |]; try discriminate.
    intros _. apply (IH m' eq_refl).
Qed.

Lemma compare_with_not_dates (op : Z -> Z -> bool) (col : list value)
  (t : Timestamp) :
  forallb date_in_bounds col = true ->
  forallb date_or_nat col = false ->
  compare_with op col t = Raise TypeError.
Proof.
  induction col as [|v col IH]; cbn [forallb compare_with];
    [discriminate|].
  rewrite andb_true_iff. intros [Hv Hb].
  destruct v as [| |x|]; cbn [date_or_nat date_in_bounds] in *;
    try reflexivity.
  - intro H. rewrite (IH Hb H). reflexivity.
  - rewrite Hv. cbn [andb]. intro H. rewrite (IH Hb H). reflexivity.
Qed.


Lemma all_missing_dates (col : list value) :
  all_missing col = true -> forallb date_or_nat col = true.
Proof.
  destruct col as [|v col]; [discriminate|]. unfold all_missing.
  apply forallb_impl. intros [] _; simpl; congruence.
Qed.

(** The whole of [get_week_df], case by case, for an end date and date
    cells that are Timestamps. *)
Lemma get_week_df_cases (now : Timestamp) (df : DataFrame)
  (end_date : option Timestamp) (days : Z) :
  in_bounds (window_end now end_date) = true ->
  forallb date_in_bounds (date_cells df) = true ->
  get_week_df now df end_date days
  = if empty df then Ok df
    else if window_overflows (window_end now end_date) days
    then Raise OutOfBounds
    else if negb (window_ok (window_end now end_date) days) then Beyond
    else if negb (mem "Fake_date" (columns df)) then Raise KeyError
    else if all_missing (date_cells df) then Beyond
    else if forallb date_or_nat (date_cells df)
    then Ok (mkDataFrame (columns df)
               (filter (in_window (columns df)
                          (window_start now end_date days)
                          (window_end now end_date))
                       (rows df)))
    else Raise TypeError.
Proof.
  intros He Hb. destruct (empty df) eqn:Hemp.
  - unfold get_week_df. rewrite Hemp. reflexivity.
  - destruct (window_ok (window_end now end_date) days) eqn:Hw.
    + assert (Hov : window_overflows (window_end now end_date) days = false).
      { unfold window_ok in Hw. rewrite !andb_true_iff in Hw.
        destruct Hw as [[_ H1] H2]. unfold window_overflows.
        rewrite H1, H2. reflexivity. }
      rewrite Hov. cbn [negb].
      destruct (mem "Fake_date" (columns df)) eqn:Hm; cbn [negb].
      * destruct (all_missing (date_cells df)) eqn:Hmiss.
        { destruct (window_ok_steps _ _ Hw) as [_ [Hdelta Hstart]].
          unfold get_week_df. rewrite Hemp.
          fold (window_end now end_date). rewrite He. cbn [negb].
          rewrite Hdelta, Hstart. unfold column. rewrite Hm.
          fold (date_cells df). rewrite Hmiss. reflexivity. }
        destruct (forallb date_or_nat (date_cells df)) eqn:Hc.
        -- rewrite get_week_df_filter;
             [reflexivity
             | unfold dated; rewrite Hm, Hc, Hmiss; reflexivity
             | exact Hw].
        -- destruct (window_ok_steps _ _ Hw) as [_ [Hdelta Hstart]].
           unfold get_week_df. rewrite Hemp.
           fold (window_end now end_date). rewrite He. cbn [negb].
           rewrite Hdelta, Hstart. unfold column. rewrite Hm.
           fold (date_cells df). rewrite Hmiss.
           rewrite (compare_with_not_dates _ _ _ Hb Hc). reflexivity.
      * destruct (window_ok_steps _ _ Hw) as [_ [Hdelta Hstart]].
        unfold get_week_df. rewrite Hemp.
        fold (window_end now end_date). rewrite He. cbn [negb].
        rewrite Hdelta, Hstart. unfold column. rewrite Hm. reflexivity.
    + cbn [negb]. unfold window_ok in Hw. rewrite He in Hw. cbn [andb] in Hw.
      unfold get_week_df. rewrite Hemp.
      fold (window_end now end_date). rewrite He. cbn [negb].
      unfold window_overflows, Timedelta, Timestamp_sub.
      destruct (in_bounds (Timedelta_days (days - 1))); cbn [negb orb andb].
      * cbn [andb] in Hw. rewrite Hw. cbn [negb andb].
        destruct (_ =? _); reflexivity.
      * reflexivity.
Qed.

(** What a call that returns has found. *)
Lemma get_week_df_ok_inv (now : Timestamp) (df week : DataFrame)
  (end_date : option Timestamp) (days : Z) :
  get_week_df now df end_date days = Ok week ->
  empty df = true /\ week = df
  \/ empty df = false
     /\ dated df = true
     /\ window_ok (window_end now end_date) days = true.
Proof.
  unfold get_week_df. destruct (empty df) eqn:Hemp.
  - intro H. injection H as <-. auto.
  - fold (window_end now end_date). unfold window_ok.
    destruct (in_bounds (window_end now end_date)); cbn [negb andb];
      [|discriminate].
    unfold Timedelta.
    destruct (in_bounds (Timedelta_days (days - 1))); [|discriminate].
    unfold Timestamp_sub.
    destruct (in_bounds (window_end now end_date
                         - Timedelta_days (days - 1)));
      [|destruct (_ =? _); discriminate].
    unfold column. destruct (mem "Fake_date" (columns df)) eqn:Hm;
      [|discriminate].
    fold (date_cells df).
    destruct (all_missing (date_cells df)) eqn:Hmiss; [discriminate|].
    destruct (compare_with Z.geb (date_cells df) _) as [m1| |] eqn:E1;
      try discriminate.
    intros _. right. unfold dated. rewrite Hm, Hmiss.
    rewrite (compare_with_ok_inv _ _ _ _ E1). auto.
Qed.

Lemma filter_twice {A} (f : A -> bool) (l : list A) :
  filter f (filter f l) = filter f l.
Proof.
  induction l as [|x l IH]; simpl; [reflexivity|].
  destruct (f x) eqn:E; simpl; [rewrite E, IH|]; auto.
Qed.

Lemma filter_narrow {A} (f g : A -> bool) (l : list A) :
  (forall x, f x = true -> g x = true) ->
  filter f (filter g l) = filter f l.
Proof.
  intro H. induction l as [|x l IH]; simpl; [reflexivity|].
  destruct (g x) eqn:Eg; simpl.
  - rewrite IH. reflexivity.
  - destruct (f x) eqn:Ef; [|exact IH].
    rewrite (H x Ef) in Eg. discriminate.
Qed.

(** The rows of a window of a dated frame make a dated frame. *)
Lemma dated_filter (df : DataFrame) (a b : Timestamp) :
  dated df = true ->
  dated (mkDataFrame (columns df)
           (filter (in_window (columns df) a b) (rows df))) = true.
Proof.
  intro Hd. destruct (dated_parts df Hd) as [Hm [Hc _]].
  unfold dated, date_cells in *. cbn [columns rows]. rewrite Hm.
  cbn [andb]. apply andb_true_iff. split.
  - rewrite forallb_forall in *. intros v Hv. apply in_map_iff in Hv.
    destruct Hv as [r [<- Hin]]. apply filter_In in Hin.
    apply Hc. apply in_map_iff. exists r. split; [reflexivity | apply Hin].
  - destruct (filter _ (rows df)) as [|r rs] eqn:E; [reflexivity|].
    assert (Hin : In r (filter (in_window (columns df) a b) (rows df)))
      by (rewrite E; left; reflexivity).
    apply filter_In in Hin. destruct Hin as [_ Hw].
    unfold in_window, date_of in Hw. cbn [map all_missing forallb].
    destruct (row_get (columns df) r "Fake_date") as [[| |t|]|];
      try discriminate.
    reflexivity.
Qed.

Lemma Timedelta_days_le (a b : Z) :
  a <= b -> Timedelta_days a <= Timedelta_days b.
Proof. unfold Timedelta_days, ns_per_day. lia. Qed.

End WindowMore.



(** X8.  A window is its own window: what [get_week_df] returns is
    returned unchanged when given back to it with the same end and span. *)
Theorem get_week_df_idempotent (now : Timestamp) (df week : DataFrame)
  (end_date : option Timestamp) (days : Z) :
  get_week_df now df end_date days = Ok week ->
  get_week_df now week end_date days = Ok week.
Proof.
  intro H.
  destruct (get_week_df_ok_inv now df week end_date days H)
    as [[He ->]|[He [Hd Hw]]].
  - unfold get_week_df. rewrite He. reflexivity.
  - rewrite (get_week_df_filter now df end_date days Hd Hw) in H.
    injection H as <-.
    rewrite get_week_df_filter; [|apply dated_filter, Hd | exact Hw].
    cbn [columns rows]. rewrite filter_twice. reflexivity.
Qed.

Lemma get_week_df_idempotent_witness :
  get_week_df 0
    (mkDataFrame ["Fake_date"; "Income"]
       [[VDate (day 97); VInt 3]; [VDate (day 100); VInt 4]])
    (Some (day 100)) default_days
  = Ok (mkDataFrame ["Fake_date"; "Income"]
          [[VDate (day 97); VInt 3]; [VDate (day 100); VInt 4]]).
Proof.
  apply (get_week_df_idempotent 0 days_ledger). reflexivity.
Defined.

(** X9.  With the same end, and both windows being ones that can be
    formed, a shorter span gives a part of what a longer span gives, and it
    is the window of that span taken from the longer window. *)
Theorem get_week_df_narrower (now : Timestamp) (df : DataFrame)
  (end_date : option Timestamp) (days1 days2 : Z) :
  dated df = true ->
  days1 <= days2 ->
  window_ok (window_end now end_date) days1 = true ->
  window_ok (window_end now end_date) days2 = true ->
  exists w1 w2,
    get_week_df now df end_date days1 = Ok w1
    /\ get_week_df now df end_date days2 = Ok w2
    /\ incl (rows w1) (rows w2)
    /\ get_week_df now w2 end_date days1 = Ok w1.
Proof.
  intros Hd Hle Hw1 Hw2.
  pose proof (Timedelta_days_le (days1 - 1) (days2 - 1) ltac:(lia)) as Ht.
  set (e := match end_date with None => normalize now | Some e => e end).
  assert (Hsub : forall r,
            in_window (columns df) (e - Timedelta_days (days1 - 1)) e r = true
            -> in_window (columns df) (e - Timedelta_days (days2 - 1)) e r
               = true).
  { intros r H. apply in_window_iff in H. apply in_window_iff.
    destruct H as [t [Hdt Hb]]. exists t. split; [exact Hdt | lia]. }
  do 2 eexists.
  split; [apply (get_week_df_filter now df end_date days1 Hd Hw1)|].
  split; [apply (get_week_df_filter now df end_date days2 Hd Hw2)|].
  cbn [rows columns]. fold e. split.
  - intros r Hr. apply filter_In in Hr. apply filter_In.
    split; [apply Hr | apply Hsub, Hr].
  - rewrite get_week_df_filter; [|apply dated_filter, Hd | exact Hw1].
    cbn [rows columns]. fold e. rewrite (filter_narrow _ _ _ Hsub).
    reflexivity.
Qed.

Lemma get_week_df_narrower_witness :
  exists w1 w2,
    get_week_df 0 days_ledger (Some (day 100)) 7 = Ok w1
    /\ get_week_df 0 days_ledger (Some (day 100)) 30 = Ok w2
    /\ incl (rows w1) (rows w2)
    /\ get_week_df 0 w2 (Some (day 100)) 7 = Ok w1.
Proof.
  apply (get_week_df_narrower 0 days_ledger (Some (day 100)) 7 30).
  - reflexivity.
  - lia.
  - reflexivity.
  - reflexivity.
Defined.

(** X10.  A span of zero days or less, when its window can be formed,
    selects nothing: the window then starts after its end. *)
Theorem get_week_df_no_days (now : Timestamp) (df : DataFrame)
  (end_date : option Timestamp) (days : Z) :
  dated df = true ->
  days <= 0 ->
  window_ok (window_end now end_date) days = true ->
  get_week_df now df end_date days = Ok (mkDataFrame (columns df) []).
Proof.
  intros Hd Hle Hw. rewrite (get_week_df_filter now df end_date days Hd Hw).
  f_equal. f_equal.
  set (e := match end_date with None => normalize now | Some e => e end).
  pose proof (Timedelta_days_le (days - 1) (-1) ltac:(lia)) as Ht.
  change (Timedelta_days (-1)) with (- ns_per_day) in Ht.
  assert (Hpos : 0 < ns_per_day) by reflexivity.
  induction (rows df) as [|r rs IH]; [reflexivity|]. simpl.
  destruct (in_window (columns df) (e - Timedelta_days (days - 1)) e r) eqn:E;
    [|exact IH].
  apply in_window_iff in E. destruct E as [t [_ Hb]]. lia.
Qed.

Lemma get_week_df_no_days_witness :
  get_week_df 0 days_ledger (Some (day 100)) 0
  = Ok (mkDataFrame ["Fake_date"; "Income"] []).
Proof.
  apply (get_week_df_no_days 0 days_ledger (Some (day 100)) 0).
  - reflexivity.
  - lia.
  - reflexivity.
Defined.

(** X11.  Saving a row of the canonical schema on a well-formed ledger
    adds it at the end of every window that holds its date and changes no
    other window: for a window that can be formed, the window of the ledger
    read after the save is the window of the ledger read before it,
    followed by the row when its date is in range. *)
Theorem get_week_df_after_save (now : Timestamp) (s : storage) (row : dict)
  (end_date : option Timestamp) (days : Z) :
  ledger_state s = true ->
  entry_typed row = true ->
  window_ok (window_end now end_date) days = true ->
  exists df df' s' week,
    fst (load_storage s) = Ok df
    /\ save_entry row s = (Ok tt, s')
    /\ fst (load_storage s') = Ok df'
    /\ get_week_df now df end_date days = Ok week
    /\ get_week_df now df' end_date days
       = Ok (mkDataFrame (columns week)
               (rows week
                ++ if in_window storage_columns
                        (window_start now end_date days)
                        (window_end now end_date) (entry_row row)
                   then [entry_row row] else [])).
Proof.
  intros Hs Ht Hw.
  exists (mkDataFrame storage_columns (stored_rows s)),
    (mkDataFrame storage_columns (stored_rows s ++ [entry_row row])),
    (appended s row).
  eexists.
  split; [rewrite (load_storage_ledger s Hs); reflexivity|].
  split; [apply (save_entry_ledger s row Hs Ht)|].
  split; [rewrite (load_after_save s row Hs Ht); reflexivity|].
  split; [apply get_week_df_filter;
          [apply stored_ledger_dated, Hs | exact Hw]|].
  rewrite get_week_df_filter.
  - cbn [columns rows]. rewrite filter_app. reflexivity.
  - rewrite <- (appended_rows s row Ht).
    apply stored_ledger_dated, appended_ledger_state; assumption.
  - exact Hw.
Qed.

Lemma get_week_df_after_save_witness :
  exists df df' s' week,
    fst (load_storage sample_storage) = Ok df
    /\ save_entry (sample_entry 19002 300 350 650) sample_storage
       = (Ok tt, s')
    /\ fst (load_storage s') = Ok df'
    /\ get_week_df 0 df (Some (day 19002)) 7 = Ok week
    /\ get_week_df 0 df' (Some (day 19002)) 7
       = Ok (mkDataFrame (columns week)
               (rows week
                ++ if in_window storage_columns
                        (window_start 0 (Some (day 19002)) 7)
                        (window_end 0 (Some (day 19002)))
                        (entry_row (sample_entry 19002 300 350 650))
                   then [entry_row (sample_entry 19002 300 350 650)]
                   else [])).
Proof.
  apply (get_week_df_after_save 0 sample_storage
           (sample_entry 19002 300 350 650) (Some (day 19002)) 7);
    reflexivity.
Defined.

(** ** Anomaly detector *)

Section AnomalyMore.

Local Open Scope Q_scope.

Lemma quantile_interpolate (s : Series.t Num.num) (q : Q) :
  Series.quantile s q
  = match Series.sort (Series.dropna (Series.values s)) with
    | [] => None
    | x0 :: rest =>
        Some (interpolate (x0 :: rest) x0
                (inject_Z (Z.of_nat (length (x0 :: rest)) - 1) * q))
    end.
Proof.
  unfold Series.quantile.
  destruct (Series.sort (Series.dropna (Series.values s))); reflexivity.
Qed.

Lemma insert_sorted_sorted (a : Q) (l : list Q) :
  StronglySorted Qle l -> StronglySorted Qle (Series.insert_sorted a l).
Proof.
  induction 1 as [|b l Hs IH Hb]; simpl.
  - repeat constructor.
  - destruct (Qle_bool a b) eqn:E.
    + apply Qle_bool_iff in E. constructor; [constructor; assumption|].
      constructor; [exact E|].
      rewrite Forall_forall in *. intros x Hx.
      apply Qle_trans with b; auto.
    + assert (Hba : b <= a).
      { apply Qlt_le_weak, Qnot_le_lt. intro H.
        apply Qle_bool_iff in H. congruence. }
      constructor; [exact IH|].
      rewrite Forall_forall in *. intros x Hx.
      apply in_insert_sorted in Hx. destruct Hx as [->|Hx]; auto.
Qed.

Lemma sort_sorted (l : list Q) : StronglySorted Qle (Series.sort l).
Proof.
  induction l as [|a l IH]; simpl; [constructor|].
  apply insert_sorted_sorted, IH.
Qed.

Lemma nth_sorted (l : list Q) (d : Q) :
  StronglySorted Qle l ->
  forall i j, (i <= j)%nat -> (j < length l)%nat -> nth i l d <= nth j l d.
Proof.
  induction 1 as [|a l Hs IH Ha]; intros i j Hij Hj; [simpl in Hj; lia|].
  destruct i as [|i]; destruct j as [|j]; simpl in *; try lia.
  - apply Qle_refl.
  - rewrite Forall_forall in Ha. apply Ha, nth_In. lia.
  - apply IH; lia.
Qed.

(** The position of a quantile is inside the list. *)
Lemma floor_in_range (h : Q) (m : Z) :
  0 <= h -> h <= inject_Z m ->
  (0 <= Qfloor h <= m)%Z
  /\ inject_Z (Qfloor h) <= h
  /\ h < inject_Z (Qfloor h) + 1.
Proof.
  intros H0 Hm. split; [split|split].
  - change 0%Z with (Qfloor 0). apply Qfloor_resp_le, H0.
  - rewrite <- (Qfloor_Z m). apply Qfloor_resp_le, Hm.
  - apply Qfloor_le.
  - pose proof (Qlt_floor h) as H. rewrite inject_Z_plus in H. exact H.
Qed.

(** The interpolated value lies between its two neighbours. *)
Lemma interpolate_between (xs : list Q) (x0 h : Q) :
  StronglySorted Qle xs ->
  xs <> [] ->
  0 <= h -> h <= inject_Z (Z.of_nat (length xs) - 1) ->
  nth (Z.to_nat (Qfloor h)) xs x0 <= interpolate xs x0 h
  /\ interpolate xs x0 h
     <= nth (Z.to_nat (Z.min (Qfloor h + 1) (Z.of_nat (length xs) - 1)))
          xs x0.
Proof.
  intros Hs Hne H0 Hm.
  destruct (floor_in_range h _ H0 Hm) as [[Hlo0 Hlom] [Hfl Hfu]].
  unfold interpolate. cbv zeta.
  set (lo := Qfloor h) in *.
  set (hi := Z.min (lo + 1) (Z.of_nat (length xs) - 1)).
  assert (Hab : nth (Z.to_nat lo) xs x0 <= nth (Z.to_nat hi) xs x0).
  { apply nth_sorted; [exact Hs | unfold hi; lia | unfold hi; lia]. }
  set (a := nth (Z.to_nat lo) xs x0) in *.
  set (b := nth (Z.to_nat hi) xs x0) in *.
  set (f := h - inject_Z lo).
  assert (Hf0 : 0 <= f) by (unfold f; lra).
  assert (Hf1 : f <= 1) by (unfold f; lra).
  split; nra.
Qed.

(** Interpolation does not decrease along the positions. *)
Lemma interpolate_mono (xs : list Q) (x0 h1 h2 : Q) :
  StronglySorted Qle xs ->
  xs <> [] ->
  0 <= h1 -> h1 <= h2 -> h2 <= inject_Z (Z.of_nat (length xs) - 1) ->
  interpolate xs x0 h1 <= interpolate xs x0 h2.
Proof.
  intros Hs Hne H0 H12 Hm.
  assert (H1m : h1 <= inject_Z (Z.of_nat (length xs) - 1)) by lra.
  assert (H20 : 0 <= h2) by lra.
  destruct (floor_in_range h1 _ H0 H1m) as [[Hl1 Hm1] [Hf1 Hu1]].
  destruct (floor_in_range h2 _ H20 Hm) as [[Hl2 Hm2] [Hf2 Hu2]].
  pose proof (Qfloor_resp_le h1 h2 H12) as Hfl.
  destruct (Z.eq_dec (Qfloor h1) (Qfloor h2)) as [E|NE].
  - unfold interpolate. cbv zeta. rewrite <- E.
    set (lo := Qfloor h1) in *.
    set (hi := Z.min (lo + 1) (Z.of_nat (length xs) - 1)).
    assert (Hab : nth (Z.to_nat lo) xs x0 <= nth (Z.to_nat hi) xs x0).
    { apply nth_sorted; [exact Hs | unfold hi; lia | unfold hi; lia]. }
    set (a := nth (Z.to_nat lo) xs x0) in *.
    set (b := nth (Z.to_nat hi) xs x0) in *.
    nra.
  - destruct (interpolate_between xs x0 h1 Hs Hne H0 H1m) as [_ Hup].
    destruct (interpolate_between xs x0 h2 Hs Hne H20 Hm) as [Hlow _].
    apply Qle_trans with (2 := Hlow). apply Qle_trans with (1 := Hup).
    apply nth_sorted; [exact Hs | lia | lia].
Qed.

Lemma sorted_values_in (s : Series.t Num.num) (x : Q) :
  In x (Series.sort (Series.dropna (Series.values s))) ->
  In (Some x) (Series.values s).
Proof. intro H. apply in_dropna, in_sort, H. Qed.

Lemma position_in_range (n : nat) (q : Q) :
  (0 < n)%nat -> 0 <= q -> q <= 1 ->
  0 <= inject_Z (Z.of_nat n - 1) * q
  /\ inject_Z (Z.of_nat n - 1) * q <= inject_Z (Z.of_nat n - 1).
Proof.
  intros Hn H0 H1.
  assert (Hm : 0 <= inject_Z (Z.of_nat n - 1)).
  { change 0 with (inject_Z 0). rewrite <- Zle_Qle. lia. }
  split; nra.
Qed.

(** A quantile lies between two values of the series. *)
Lemma quantile_between (s : Series.t Num.num) (q v : Q) :
  0 <= q -> q <= 1 ->
  Series.quantile s q = Some v ->
  exists a b,
    In (Some a) (Series.values s) /\ In (Some b) (Series.values s)
    /\ a <= v <= b.
Proof.
  intros H0 H1. rewrite quantile_interpolate.
  pose proof (sort_sorted (Series.dropna (Series.values s))) as Hs.
  pose proof (sorted_values_in s) as Hin.
  destruct (Series.sort (Series.dropna (Series.values s))) as [|x0 rest];
    [discriminate|].
  intro H. injection H as <-.
  set (xs := x0 :: rest) in *.
  destruct (position_in_range (length xs) q) as [Hh0 Hhm];
    [simpl; lia | assumption | assumption |].
  destruct (floor_in_range _ _ Hh0 Hhm) as [[Hl Hm] _].
  destruct (interpolate_between xs x0 _ Hs ltac:(discriminate) Hh0 Hhm)
    as [Hlow Hup].
  eexists. eexists. split; [|split; [|split; [exact Hlow | exact Hup]]].
  - apply Hin, nth_In. lia.
  - apply Hin, nth_In. lia.
Qed.

(** Quantiles do not decrease with their level. *)
Lemma quantile_mono (s : Series.t Num.num) (q q' v v' : Q) :
  0 <= q -> q <= q' -> q' <= 1 ->
  Series.quantile s q = Some v ->
  Series.quantile s q' = Some v' ->
  v <= v'.
Proof.
  intros H0 Hqq H1. rewrite !quantile_interpolate.
  pose proof (sort_sorted (Series.dropna (Series.values s))) as Hs.
  destruct (Series.sort (Series.dropna (Series.values s))) as [|x0 rest];
    [discriminate|].
  intros H H'. injection H as <-. injection H' as <-.
  set (xs := x0 :: rest) in *.
  destruct (position_in_range (length xs) q) as [Hh0 Hhm];
    [simpl; lia | assumption | lra |].
  destruct (position_in_range (length xs) q') as [Hh0' Hhm'];
    [simpl; lia | lra | assumption |].
  apply interpolate_mono; try assumption; [discriminate|].
  assert (Hm : 0 <= inject_Z (Z.of_nat (length xs) - 1)).
  { change 0 with (inject_Z 0). rewrite <- Zle_Qle. unfold xs.
    cbn [length]. lia. }
  rewrite !(Qmult_comm (inject_Z _)).
  apply Qmult_le_compat_r; assumption.
Qed.

Lemma quartiles_ordered (s : Series.t Num.num) (q1 q3 : Q) :
  Series.quantile s (1 # 4) = Some q1 ->
  Series.quantile s (3 # 4) = Some q3 ->
  q1 <= q3.
Proof.
  apply quantile_mono; [discriminate | discriminate | discriminate].
Qed.

Lemma quartiles_together (s : Series.t Num.num) (q q' : Q) :
  Series.quantile s q = None <-> Series.quantile s q' = None.
Proof.
  rewrite !quantile_interpolate.
  destruct (Series.sort (Series.dropna (Series.values s)));
    split; intro; try reflexivity; discriminate.
Qed.

End AnomalyMore.

Section FlagFacts.

Local Open Scope Q_scope.

Lemma anomaly_iqr_flagged (s : Series.t Num.num) (k : Q) :
  anomaly_iqr s k = Series.map_values (flagged s k) s.
Proof.
  unfold anomaly_iqr, flagged, Series.map_values, Series.const_like.
  destruct (_ || _); reflexivity.
Qed.

Lemma anomaly_iqr_nth (s : Series.t Num.num) (k : Q) (i : nat) :
  nth_error (anomaly_iqr s k) i
  = option_map (fun p => (fst p, flagged s k (snd p))) (nth_error s i).
Proof.
  rewrite anomaly_iqr_flagged. unfold Series.map_values.
  apply nth_error_map.
Qed.

(** What a raised flag says about the value. *)
Lemma flagged_true (s : Series.t Num.num) (k : Q) (v : Num.num) :
  flagged s k v = true <->
  exists x q1 q3,
    v = Some x
    /\ Series.quantile s (1 # 4) = Some q1
    /\ Series.quantile s (3 # 4) = Some q3
    /\ ~ q3 - q1 == 0
    /\ (x < q1 - k * (q3 - q1) \/ q3 + k * (q3 - q1) < x).
Proof.
  unfold flagged.
  destruct (Series.quantile s (1 # 4)) as [q1|];
    destruct (Series.quantile s (3 # 4)) as [q3|]; simpl;
    try (split; [discriminate | intros [x [a [b [_ [H1 [H3 _]]]]]];
                                discriminate]).
  destruct (Qeq_bool (q3 - q1) 0) eqn:E; simpl.
  - split; [discriminate|]. intros [x [a [b [_ [H1 [H3 [Hne _]]]]]]].
    injection H1 as <-. injection H3 as <-.
    apply Qeq_bool_iff in E. contradiction.
  - change (Num.lt v (Some (q1 - k * (q3 - q1)))
            || Num.gt v (Some (q3 + k * (q3 - q1))) = true <->
            exists x a b, v = Some x /\ Some q1 = Some a /\ Some q3 = Some b
              /\ ~ b - a == 0
              /\ (x < a - k * (b - a) \/ b + k * (b - a) < x)).
    rewrite flag_iff. split.
    + intros [x [Hv Hx]]. exists x, q1, q3. repeat split; auto.
      intro H. apply Qeq_bool_iff in H. congruence.
    + intros [x [a [b [Hv [H1 [H3 [_ Hx]]]]]]].
      injection H1 as <-. injection H3 as <-. exists x. auto.
Qed.

End FlagFacts.

(** X12.  The interquartile range that [anomaly_iqr] computes is never
    negative: the first quartile is at most the third, and both lie between
    two values of the series. *)
Theorem anomaly_iqr_range_nonneg (s : Series.t Num.num) :
  (forall d, iqr_of s = Some d -> (0 <= d)%Q)
  /\ (forall q1 q3,
        Series.quantile s (1 # 4) = Some q1 ->
        Series.quantile s (3 # 4) = Some q3 ->
        (q1 <= q3)%Q
        /\ exists a b,
             In (Some a) (Series.values s) /\ In (Some b) (Series.values s)
             /\ (a <= q1)%Q /\ (q3 <= b)%Q).
Proof.
  split.
  - unfold iqr_of. intros d Hd.
    destruct (Series.quantile s (3 # 4)) as [q3|] eqn:E3; [|discriminate].
    destruct (Series.quantile s (1 # 4)) as [q1|] eqn:E1; [|discriminate].
    injection Hd as <-. pose proof (quartiles_ordered s q1 q3 E1 E3). lra.
  - intros q1 q3 H1 H3. split; [apply (quartiles_ordered s q1 q3 H1 H3)|].
    destruct (quantile_between s (1 # 4) q1) as [a [_ [Ha [_ [Hq _]]]]];
      [discriminate | discriminate | exact H1 |].
    destruct (quantile_between s (3 # 4) q3) as [_ [b [_ [Hb [_ Hq']]]]];
      [discriminate | discriminate | exact H3 |].
    exists a, b. auto.
Qed.

Lemma anomaly_iqr_range_nonneg_witness :
  ((41 # 4) <= (51 # 4))%Q
  /\ exists a b,
       In (Some a) (Series.values (qs [10; 12; 11; 13; 9; 50]))
       /\ In (Some b) (Series.values (qs [10; 12; 11; 13; 9; 50]))
       /\ (a <= 41 # 4)%Q /\ (51 # 4 <= b)%Q.
Proof.
  apply (proj2 (anomaly_iqr_range_nonneg (qs [10; 12; 11; 13; 9; 50])));
    vm_compute; reflexivity.
Defined.

(** X13.  With a multiplier that is not negative, [anomaly_iqr] never flags
    a missing value, nor a value that lies between the two quartiles,
    bounds included. *)
Theorem anomaly_iqr_spares_middle (s : Series.t Num.num) (k : Q)
  (i : nat) (l : Series.label) (v : Num.num) :
  (0 <= k)%Q ->
  nth_error s i = Some (l, v) ->
  match v with
  | None => True
  | Some x =>
      exists q1 q3,
        Series.quantile s (1 # 4) = Some q1
        /\ Series.quantile s (3 # 4) = Some q3
        /\ (q1 <= x <= q3)%Q
  end ->
  nth_error (anomaly_iqr s k) i = Some (l, false).
Proof.
  intros Hk Hi Hv. rewrite anomaly_iqr_nth, Hi. cbn [option_map fst snd].
  do 2 f_equal. destruct (flagged s k v) eqn:E; [|reflexivity].
  apply flagged_true in E.
  destruct E as [x [q1 [q3 [-> [H1 [H3 [_ Hx]]]]]]].
  destruct Hv as [a [b [Ha [Hb Hab]]]].
  rewrite H1 in Ha. rewrite H3 in Hb. injection Ha as <-. injection Hb as <-.
  pose proof (quartiles_ordered s q1 q3 H1 H3) as Hq.
  exfalso. destruct Hx; nra.
Qed.

Lemma anomaly_iqr_spares_middle_witness :
  nth_error (anomaly_iqr (qs [10; 12; 11; 13; 9; 50]) default_k) 2
  = Some (2, false).
Proof.
  apply (anomaly_iqr_spares_middle (qs [10; 12; 11; 13; 9; 50]) default_k
           2 2 (Some (inject_Z 11))).
  - discriminate.
  - reflexivity.
  - exists (41 # 4), (51 # 4).
    repeat split; vm_compute; try reflexivity; discriminate.
Defined.

(** X14.  A larger multiplier never adds a flag: what is flagged with [k']
    is flagged with every [k] below it. *)
Theorem anomaly_iqr_fewer_flags (s : Series.t Num.num) (k k' : Q)
  (i : nat) (l : Series.label) :
  (k <= k')%Q ->
  nth_error (anomaly_iqr s k') i = Some (l, true) ->
  nth_error (anomaly_iqr s k) i = Some (l, true).
Proof.
  intro Hk. rewrite !anomaly_iqr_nth.
  destruct (nth_error s i) as [[l' v]|]; [|discriminate].
  cbn [option_map fst snd]. intro H. injection H as -> Hf.
  do 2 f_equal. apply flagged_true in Hf. apply flagged_true.
  destruct Hf as [x [q1 [q3 [Hv [H1 [H3 [Hne Hx]]]]]]].
  exists x, q1, q3. repeat split; auto.
  pose proof (quartiles_ordered s q1 q3 H1 H3) as Hq.
  destruct Hx; [left | right]; nra.
Qed.

Lemma anomaly_iqr_fewer_flags_witness :
  nth_error (anomaly_iqr (qs [10; 12; 11; 13; 9; 50]) 1) 5 = Some (5, true).
Proof.
  apply (anomaly_iqr_fewer_flags (qs [10; 12; 11; 13; 9; 50]) 1 default_k).
  - discriminate.
  - vm_compute. reflexivity.
Defined.

(** X15.  The flags depend on the values of the series only: two series
    with the same values in the same order get the same flags, each under
    its own index labels. *)
Theorem anomaly_iqr_labels (s s' : Series.t Num.num) (k : Q) :
  Series.values s = Series.values s' ->
  Series.values (anomaly_iqr s k) = Series.values (anomaly_iqr s' k)
  /\ Series.index (anomaly_iqr s k) = Series.index s
  /\ Series.index (anomaly_iqr s' k) = Series.index s'.
Proof.
  intro H. split; [|split; apply anomaly_iqr_index].
  rewrite !anomaly_iqr_flagged.
  assert (Hf : forall v, flagged s k v = flagged s' k v).
  { intro v. unfold flagged, Series.quantile. rewrite H. reflexivity. }
  unfold Series.values, Series.map_values in *. rewrite !map_map.
  cbn [snd].
  rewrite <- (map_map snd (flagged s k)), <- (map_map snd (flagged s' k)), H.
  apply map_ext, Hf.
Qed.

Lemma anomaly_iqr_labels_witness :
  Series.values (anomaly_iqr [(7, Some (inject_Z 5)); (3, Some (inject_Z 9))]
                   default_k)
  = Series.values (anomaly_iqr (qs [5; 9]) default_k).
Proof.
  apply (anomaly_iqr_labels
           [(7, Some (inject_Z 5)); (3, Some (inject_Z 9))] (qs [5; 9])).
  reflexivity.
Defined.

(** ** Start of the script *)

Section StartupMore.

Import Startup.

Lemma main_ran_inv (w : world) (s s' : storage) (sess : session)
  (df : result DataFrame) :
  main w s = (Ran sess df, s') ->
  exists file reps,
    fetch_model w = Some (file, reps)
    /\ sess = load_model file reps
    /\ (df, s') = load_storage s.
Proof.
  unfold main. destruct (fetch_model w) as [[file reps]|]; [|discriminate].
  destruct (load_storage s) as [df0 s0]. intro H. injection H as <- <- <-.
  exists file, reps. auto.
Qed.

Lemma fetch_model_reports (w : world) (file : option artifact)
  (reps : list report) :
  fetch_model w = Some (file, reps) ->
  (reps = [] /\ file <> None)
  \/ (file = None /\ exists code, reps = [DownloadFailed code]).
Proof.
  unfold fetch_model. destruct (model_file w) as [a|].
  - intro H. injection H as <- <-. left. split; [reflexivity|discriminate].
  - destruct (remote w) as [code body|]; [|discriminate].
    destruct (code =? 200); intro H; injection H as <- <-.
    + left. split; [reflexivity|discriminate].
    + right. eauto.
Qed.

End StartupMore.

(** X16.  In a run that is not aborted, an error is reported exactly when
    the model is not loaded, and the model is loaded exactly when the file
    at the model path, as the run leaves it, is a dump that can be
    loaded. *)
Theorem startup_reports_iff_not_loaded (w : Startup.world) (s s' : storage)
  (sess : Startup.session) (df : result DataFrame) :
  Startup.main w s = (Startup.Ran sess df, s') ->
  (Startup.model_loaded sess = true <-> Startup.reports sess = [])
  /\ (Startup.model_loaded sess = true <->
      exists m, Startup.model sess = Some m
                /\ Startup.model_file_after sess
                   = Some (Startup.Pickle m)).
Proof.
  intro H. apply main_ran_inv in H.
  destruct H as [file [reps [Hf [-> _]]]].
  apply fetch_model_reports in Hf.
  destruct Hf as [[-> Hfile]|[-> [code ->]]].
  - destruct file as [[m|]|]; [| |contradiction]; simpl; split; split;
      try discriminate; try reflexivity; eauto.
    intros [m [Hm _]]. discriminate.
  - simpl. split; split; try discriminate.
    intros [m [Hm _]]. discriminate.
Qed.

Lemma startup_reports_iff_not_loaded_witness :
  Startup.model_loaded
    (Startup.load_model None [Startup.DownloadFailed 404]) = true
  <-> Startup.reports
        (Startup.load_model None [Startup.DownloadFailed 404]) = [].
Proof.
  apply (proj1 (startup_reports_iff_not_loaded
    (Startup.mkWorld None (Startup.Response 404 Startup.Garbage))
    sample_storage sample_storage _
    (fst (load_storage sample_storage)) eq_refl)).
Defined.

(** X17.  Once a run has left a file at the model path, every later run
    finds it, does not download, cannot be aborted by the network, and
    comes to the same model or to the same failure to load it: a download
    that was saved is never fetched again, loadable or not. *)
Theorem startup_later_runs (w : Startup.world) (s s' : storage)
  (sess : Startup.session) (df : result DataFrame) (a : Startup.artifact)
  (later : Startup.fetched) :
  Startup.main w s = (Startup.Ran sess df, s') ->
  Startup.model_file_after sess = Some a ->
  exists sess',
    Startup.main (Startup.mkWorld (Some a) later) s'
    = (Startup.Ran sess' (fst (load_storage s')), snd (load_storage s'))
    /\ Startup.model_loaded sess' = Startup.model_loaded sess
    /\ Startup.model sess' = Startup.model sess
    /\ Startup.model_file_after sess' = Some a.
Proof.
  intros H Ha. apply main_ran_inv in H.
  destruct H as [file [reps [_ [-> _]]]].
  exists (Startup.load_model (Some a) []). split.
  - apply main_runs_without_model. reflexivity.
  - destruct file as [[m|]|]; simpl in Ha; try discriminate;
      injection Ha as <-; repeat split.
Qed.

Lemma startup_later_runs_witness :
  exists sess',
    Startup.main (Startup.mkWorld (Some Startup.Garbage)
                    Startup.RequestException) sample_storage
    = (Startup.Ran sess' (fst (load_storage sample_storage)),
       snd (load_storage sample_storage))
    /\ Startup.model_loaded sess' = false.
Proof.
  destruct (startup_later_runs
    (Startup.mkWorld None (Startup.Response 200 Startup.Garbage))
    sample_storage sample_storage _ (fst (load_storage sample_storage))
    Startup.Garbage Startup.RequestException eq_refl eq_refl)
    as [sess' [H1 [H2 _]]].
  exists sess'. split; [exact H1 | exact H2].
Defined.

(** X18.  What a run that is not aborted loads from the storage, and the
    state it leaves the storage file in, are those of [load_storage] on
    the storage it found: they do not depend on the model file nor on the
    download. *)
Theorem startup_storage_independent (w1 w2 : Startup.world)
  (s s1 s2 : storage) (sess1 sess2 : Startup.session)
  (df1 df2 : result DataFrame) :
  Startup.main w1 s = (Startup.Ran sess1 df1, s1) ->
  Startup.main w2 s = (Startup.Ran sess2 df2, s2) ->
  df1 = df2 /\ s1 = s2 /\ (df1, s1) = load_storage s.
Proof.
  intros H1 H2. apply main_ran_inv in H1. apply main_ran_inv in H2.
  destruct H1 as [_ [_ [_ [_ E1]]]]. destruct H2 as [_ [_ [_ [_ E2]]]].
  rewrite <- E1 in E2. injection E2 as <- <-. auto.
Qed.

Lemma startup_storage_independent_witness :
  fst (load_storage sample_storage) = fst (load_storage sample_storage)
  /\ sample_storage = sample_storage
  /\ (fst (load_storage sample_storage), sample_storage)
     = load_storage sample_storage.
Proof.
  apply (startup_storage_independent
    (Startup.mkWorld (Some (Startup.Pickle 1)) Startup.RequestException)
    (Startup.mkWorld None (Startup.Response 404 Startup.Garbage))
    sample_storage sample_storage sample_storage _ _ _ _ eq_refl eq_refl).
Defined.
